(** * Bulk ingestion and reporting pipeline of the Books Management API

    A shallow embedding of the Express/Redis server of [question3]
    (the JavaScript listing in [src/question3/README.md]): the cache-aside
    read path, the single-record CRUD routes, the bulk intake route
    [POST /books/bulk], the two cron jobs [processBulkBooks] and
    [generateAndSendReports], the status route [GET /books/queue], the
    account routes and [GET /admin/stats].

    Handlers are functions in a state-and-exception monad over a [World]
    (the Redis key space, the in-memory [booksDatabase], the report files,
    the mail outbox and the cursors of the identifier source, the random
    source and the clock). Everything a handler cannot decide by itself
    (the readings of the clock, [uuidv4], [Math.random], store outages,
    rendering failures, [path.join], the process environment) is read from
    an [Env].

    Scope of the model: a book route or a cron job runs from its first
    statement to its last without another one in between (the one place
    where two requests are followed through an [await] is the signup
    route); keys do not expire while the modelled events run (a TTL is
    stored with its key and reported by [TTL], it never counts down);
    authentication and rate limiting have run before a handler is entered,
    and a handler is described for every request body, so for whatever the
    [express-validator] chain in front of it lets through. *)

From Stdlib Require Import ZArith QArith Ascii String List Lia.
From stdpp Require Import base gmap strings list fin_maps pretty.

Open Scope string_scope.

#[local] Set Warnings "-register-all".

(** ** JSON values and JavaScript objects *)

(** Request bodies arrive through [express.json()], so books are arbitrary
    JSON values.  Numbers are kept as integers: the handlers only test them
    for truthiness. The numbers whose JSON text does not give them back (an
    infinite double, negative zero) are left out, and no property below
    speaks of how a number is stored. Objects are ordered field lists;
    [obj_get] reads the first binding of a name. *)
Inductive JValue : Type :=
  | JNull
  | JBool (b : bool)
  | JNum (n : Z)
  | JStr (s : string)
  | JArr (items : list JValue)
  | JObj (fields : list (string * JValue)).

Definition is_object (v : JValue) : bool :=
  match v with JObj _ => true | _ => false end.

Fixpoint obj_get (k : string) (fs : list (string * JValue)) : option JValue :=
  match fs with
  | [] => None
  | (k', v) :: rest => if String.eqb k k' then Some v else obj_get k rest
  end.

(** [{ ...o, k: v }]: an existing property keeps its position and takes the
    new value, a new one is appended. *)
Fixpoint obj_set (k : string) (v : JValue) (fs : list (string * JValue))
  : list (string * JValue) :=
  match fs with
  | [] => [(k, v)]
  | (k', v') :: rest =>
      if String.eqb k k' then (k, v) :: rest else (k', v') :: obj_set k v rest
  end.

(** A thrown JavaScript [Error]; only its [message] is ever inspected. *)
Record Exn : Type := Error { message : string }.

Definition TypeError_null (prop : string) : Exn :=
  Error ("Cannot read properties of null (reading '" +:+ prop +:+ "')").

Definition TypeError_undefined (prop : string) : Exn :=
  Error ("Cannot read properties of undefined (reading '" +:+ prop +:+ "')").

Definition TypeError_not_a_function (callee : string) : Exn :=
  Error (callee +:+ " is not a function").

(** [v.k] for the property names the server reads ([title], [author], [id],
    [userId]): [null] throws, an object answers from its fields, every other
    JSON value has no such property and answers [undefined] ([None]). *)
Definition get_prop (v : JValue) (k : string) : Exn + option JValue :=
  match v with
  | JNull => inl (TypeError_null k)
  | JObj fs => inr (obj_get k fs)
  | _ => inr None
  end.

(** JavaScript truthiness of a possibly [undefined] JSON value. *)
Definition truthy (v : option JValue) : bool :=
  match v with
  | None => false
  | Some JNull => false
  | Some (JBool b) => b
  | Some (JNum n) => negb (n =? 0)%Z
  | Some (JStr s) => negb (String.eqb s "")
  | Some (JArr _) => true
  | Some (JObj _) => true
  end.

(** Own enumerable properties copied by an object spread. Only objects reach
    the spread of [POST /books/bulk] (see [validated_items_are_objects]). *)
Definition own_props (v : JValue) : list (string * JValue) :=
  match v with JObj fs => fs | _ => [] end.

(** ** Redis keys *)

Module REDIS_KEYS.
Definition userBooks (userId : string) : string := "books:user:" +:+ userId.
Definition bulkBooks (userId : string) : string := "bulk_books:user:" +:+ userId.
Definition bulkStatus (userId : string) : string := "bulk_status:user:" +:+ userId.
Definition allBulkKeys : string := "bulk_books:user:*".
Definition allStatusKeys : string := "bulk_status:user:*".
End REDIS_KEYS.

(** Glob matching as used by [KEYS]: [*] matches any run of characters, every
    other character matches itself (the two patterns of the server use
    nothing else). *)
Fixpoint glob_match (pat s : string) : bool :=
  match pat with
  | EmptyString => match s with EmptyString => true | _ => false end
  | String c pat' =>
      if Ascii.eqb c "*"%char then
        (fix skip (s : string) : bool :=
           glob_match pat' s ||
           match s with
           | EmptyString => false
           | String _ s' => skip s'
           end) s
      else
        match s with
        | EmptyString => false
        | String d s' => Ascii.eqb c d && glob_match pat' s'
        end
  end.

(** ** Stored values *)

Record User : Type := mkUser {
  user_id : string;
  user_username : string;
  user_email : string
}.

(** The queue entry written by [POST /books/bulk] ([bulkData]). *)
Record BulkData : Type := mkBulkData {
  bd_userId : string;
  bd_username : string;
  bd_userEmail : string;
  bd_books : list JValue;
  bd_queuedAt : string;
  bd_requestId : string
}.

(** One element of [failedBooks]. *)
Record FailedBook : Type := mkFailedBook {
  fb_title : option JValue;
  fb_author : option JValue;
  fb_error : string
}.

(** The status entry written by [processBulkBooks] ([statusData]). *)
Record StatusData : Type := mkStatusData {
  sd_userId : string;
  sd_username : string;
  sd_userEmail : string;
  sd_requestId : string;
  totalBooks : nat;
  successCount : nat;
  failCount : nat;
  failedBooks : list FailedBook;
  sd_processedAt : string;
  sd_queuedAt : string;
  sd_status : string
}.

(** What [JSON.parse] gives back for the string stored under a key: on the
    values of the model ([JValue] leaves out the numbers for which this
    fails) [JSON.stringify] followed by [JSON.parse] is the identity on the
    three shapes the server stores. *)
Inductive Value : Type :=
  | VBooks (books : list JValue)
  | VQueue (bulkData : BulkData)
  | VStatus (statusData : StatusData).

(** A live key: its value and its remaining time to live in seconds. *)
Record Entry : Type := mkEntry { entry_value : Value; entry_ttl : Z }.

(** ** The world and its environment *)

(** A message handed to the mail transport: recipient, greeting name, the
    attached PDF, the success rate printed in the summary and the status data
    the summary was built from. *)
Record Mail : Type := mkMail {
  mail_to : string;
  mail_username : string;
  mail_attachment : string;
  mail_successRate : option Q;
  mail_status : StatusData
}.

(** [reports] lists the paths [generateBulkReport] has written a PDF to,
    latest first, a path once for every time it was written; [fs.remove]
    takes a path off the list. The three cursors count the identifiers
    generated, the random numbers drawn and the readings of the clock. *)
Record World : Type := mkWorld {
  redis : gmap string Entry;
  booksDatabase : list JValue;
  reports : list string;
  outbox : list Mail;
  uuid_cursor : nat;
  random_cursor : nat;
  clock_cursor : nat
}.

Definition initial_world : World :=
  {| redis := ∅; booksDatabase := []; reports := []; outbox := [];
     uuid_cursor := 0; random_cursor := 0; clock_cursor := 0 |}.

Inductive RedisOp : Type :=
  | OpGet (key : string)
  | OpSetex (key : string)
  | OpDel (key : string)
  | OpKeys (pattern : string)
  | OpTtl (key : string).

(** The surroundings of one handler run. [now n] is what the [n]-th
    [new Date().toISOString()] of the server's life answers, [uuidv4 n] and
    [Math_random n] the same for the two other sources. [redis_down op] says
    that the Redis command [op] rejects during this run (within one run no
    command is issued twice on the same key, so this describes every pattern
    of outages); a rejected command leaves the store as it was. [pdf_fails],
    [sendMail_fails] and [fs_remove_fails] say the same of the PDF write
    stream (by request identifier), the mail transport (by recipient) and
    the removal of a file (by path). [path_join] is [path.join] of Node. *)
Record Env : Type := mkEnv {
  now : nat -> string;
  uuidv4 : nat -> string;
  Math_random : nat -> Q;
  redis_down : RedisOp -> bool;
  ensureDir_fails : bool;
  pdf_fails : string -> bool;
  sendMail_fails : string -> bool;
  fs_remove_fails : string -> bool;
  PDF_OUTPUT_DIR : string;
  PDF_CLEANUP_AFTER_SEND : bool;
  path_join : string -> string -> string
}.

(** ** The handler monad: state that survives a throw *)

Definition M (A : Type) : Type := World -> World * (Exn + A).

Definition ret {A} (a : A) : M A := fun w => (w, inr a).

Definition throw {A} (e : Exn) : M A := fun w => (w, inl e).

Definition bind {A B} (m : M A) (k : A -> M B) : M B :=
  fun w =>
    match m w with
    | (w', inl e) => (w', inl e)
    | (w', inr a) => k a w'
    end.

(** [try { m } catch (e) { h e }]: effects of [m] up to the throw are kept. *)
Definition try_catch {A} (m : M A) (h : Exn -> M A) : M A :=
  fun w =>
    match m w with
    | (w', inl e) => h e w'
    | (w', inr a) => (w', inr a)
    end.

Definition lift {A} (r : Exn + A) : M A := fun w => (w, r).

Definition get_world : M World := fun w => (w, inr w).

Definition modify (f : World -> World) : M unit := fun w => (f w, inr tt).

Notation "'let*' x ':=' m 'in' k" := (bind m (fun x => k))
  (at level 10, x pattern, m at level 100, k at level 200).
Notation "m ';;' k" := (bind m (fun _ => k))
  (at level 100, k at level 200, right associativity).

(** [for (const x of xs) body(x)]. *)
Fixpoint for_of {A} (xs : list A) (body : A -> M unit) : M unit :=
  match xs with
  | [] => ret tt
  | x :: rest => body x ;; for_of rest body
  end.

Definition run {A} (m : M A) (w : World) : World := fst (m w).
Definition result {A} (m : M A) (w : World) : Exn + A := snd (m w).

(** ** World updates *)

Definition set_redis (f : gmap string Entry -> gmap string Entry) (w : World) : World :=
  {| redis := f (redis w); booksDatabase := booksDatabase w;
     reports := reports w; outbox := outbox w;
     uuid_cursor := uuid_cursor w; random_cursor := random_cursor w;
     clock_cursor := clock_cursor w |}.

Definition set_booksDatabase (f : list JValue -> list JValue) (w : World) : World :=
  {| redis := redis w; booksDatabase := f (booksDatabase w);
     reports := reports w; outbox := outbox w;
     uuid_cursor := uuid_cursor w; random_cursor := random_cursor w;
     clock_cursor := clock_cursor w |}.

Definition set_reports (f : list string -> list string) (w : World) : World :=
  {| redis := redis w; booksDatabase := booksDatabase w;
     reports := f (reports w); outbox := outbox w;
     uuid_cursor := uuid_cursor w; random_cursor := random_cursor w;
     clock_cursor := clock_cursor w |}.

Definition set_outbox (f : list Mail -> list Mail) (w : World) : World :=
  {| redis := redis w; booksDatabase := booksDatabase w;
     reports := reports w; outbox := f (outbox w);
     uuid_cursor := uuid_cursor w; random_cursor := random_cursor w;
     clock_cursor := clock_cursor w |}.

Definition bump_uuid (w : World) : World :=
  {| redis := redis w; booksDatabase := booksDatabase w;
     reports := reports w; outbox := outbox w;
     uuid_cursor := S (uuid_cursor w); random_cursor := random_cursor w;
     clock_cursor := clock_cursor w |}.

Definition bump_random (w : World) : World :=
  {| redis := redis w; booksDatabase := booksDatabase w;
     reports := reports w; outbox := outbox w;
     uuid_cursor := uuid_cursor w; random_cursor := S (random_cursor w);
     clock_cursor := clock_cursor w |}.

Definition bump_clock (w : World) : World :=
  {| redis := redis w; booksDatabase := booksDatabase w;
     reports := reports w; outbox := outbox w;
     uuid_cursor := uuid_cursor w; random_cursor := random_cursor w;
     clock_cursor := S (clock_cursor w) |}.

(** ** HTTP responses *)

(** The [expiresIn] field: the TTL when positive, the string ['Unknown']
    otherwise. *)
Inductive ExpiresIn : Type :=
  | Seconds (ttl : Z)
  | Unknown.

Inductive Body : Type :=
  | ErrorBody (error : string)
  | BooksBody (source : string) (data : list JValue) (count : nat)
  | BookBody (msg : string) (data : JValue)
  | QueuedBody (requestId : string) (queuedBooks : nat) (queuedAt : string)
  | StageNone
  | StageQueued (booksCount : nat) (requestId queuedAt : string)
                (expiresIn : ExpiresIn)
  | StageProcessed (requestId : string) (total success fail : nat)
                   (processedAt : string) (reportExpiresIn : ExpiresIn).

Record Response : Type := mkResponse { res_status : Z; res_body : Body }.

Definition internal_server_error : Response :=
  mkResponse 500 (ErrorBody "Internal server error").

(** ** String helpers of the CRUD routes *)

(** [String.prototype.trim] on the ASCII white space characters. *)
Definition is_space (c : ascii) : bool :=
  let n := nat_of_ascii c in
  (Nat.leb 9 n && Nat.leb n 13) || Nat.eqb n 32.

Fixpoint trim_left (cs : list ascii) : list ascii :=
  match cs with
  | c :: rest => if is_space c then trim_left rest else cs
  | [] => []
  end.

Definition trim (s : string) : string :=
  string_of_list_ascii
    (rev (trim_left (rev (trim_left (list_ascii_of_string s))))).

(** [s.replace(pat, repl)] for a string pattern: the first occurrence. *)
Fixpoint replace_first (pat repl s : string) : string :=
  if String.prefix pat s then
    repl +:+ String.substring (String.length pat) (String.length s - String.length pat) s
  else
    match s with
    | EmptyString => EmptyString
    | String c s' => String c (replace_first pat repl s')
    end.

(** What [const { title, author, isbn, publishedYear, genre } = req.body]
    binds in a single-book route: the JSON value the body holds under each
    name, [None] ([undefined]) when it holds none. The handlers are described
    for every body, whatever [validateBook] lets through. *)
Record BookInput : Type := mkBookInput {
  in_title : option JValue;
  in_author : option JValue;
  in_isbn : option JValue;
  in_publishedYear : option JValue;
  in_genre : option JValue
}.

(** [v.trim()] for the variable [name]: only a string has the method. *)
Definition call_trim (name : string) (v : option JValue) : Exn + JValue :=
  match v with
  | Some (JStr s) => inr (JStr (trim s))
  | None => inl (TypeError_undefined "trim")
  | Some JNull => inl (TypeError_null "trim")
  | Some _ => inl (TypeError_not_a_function (name +:+ ".trim"))
  end.

(** [v?.trim() || null]. *)
Definition trim_or_null (name : string) (v : option JValue) : Exn + JValue :=
  match v with
  | None | Some JNull => inr JNull
  | Some (JStr s) => let t := trim s in inr (if String.eqb t "" then JNull else JStr t)
  | Some _ => inl (TypeError_not_a_function (name +:+ "?.trim"))
  end.

(** [v || null]. *)
Definition or_null (v : option JValue) : JValue :=
  if truthy v then default JNull v else JNull.

(** [v.k === s] for a string [s]. *)
Definition prop_is (v : JValue) (k s : string) : Exn + bool :=
  match get_prop v k with
  | inl e => inl e
  | inr (Some (JStr s')) => inr (String.eqb s' s)
  | inr _ => inr false
  end.

(** [booksDatabase.filter(book => book.userId === userId)]. *)
Fixpoint filter_by_owner (userId : string) (db : list JValue) : Exn + list JValue :=
  match db with
  | [] => inr []
  | book :: rest =>
      match prop_is book "userId" userId with
      | inl e => inl e
      | inr b =>
          match filter_by_owner userId rest with
          | inl e => inl e
          | inr bs => inr (if b then book :: bs else bs)
          end
      end
  end.

(** [booksDatabase.findIndex(book => book.id === bookId &&
    book.userId === userId)]; [None] stands for [-1]. *)
Fixpoint findIndex_book (bookId userId : string) (i : nat) (db : list JValue)
  : Exn + option nat :=
  match db with
  | [] => inr None
  | book :: rest =>
      match prop_is book "id" bookId with
      | inl e => inl e
      | inr false => findIndex_book bookId userId (S i) rest
      | inr true =>
          match prop_is book "userId" userId with
          | inl e => inl e
          | inr true => inr (Some i)
          | inr false => findIndex_book bookId userId (S i) rest
          end
      end
  end.

(** The validation loop of [POST /books/bulk]: the index of the first book
    whose [title] or [author] is falsy, if any. *)
Fixpoint first_invalid_book (i : nat) (books : list JValue) : Exn + option nat :=
  match books with
  | [] => inr None
  | book :: rest =>
      match get_prop book "title" with
      | inl e => inl e
      | inr title =>
          if negb (truthy title) then inr (Some i)
          else
            match get_prop book "author" with
            | inl e => inl e
            | inr author =>
                if negb (truthy author) then inr (Some i)
                else first_invalid_book (S i) rest
            end
      end
  end.

Definition missing_fields_message (i : nat) : string :=
  "Book at index " +:+ pretty i +:+ " is missing required fields (title, author)".

(** The keys [redis.keys(pattern)] answers with. *)
Definition scan (pattern : string) (m : gmap string Entry) : list string :=
  List.filter (glob_match pattern) (map fst (map_to_list m)).

(** ** Handlers *)

Section Handlers.

Variable env : Env.

(** *** Collaborators *)

(** What [await redis.get(...)] and its siblings throw when the command is
    rejected. *)
Definition redis_rejects : Exn := Error "Connection is closed.".

Definition redis_get (key : string) : M (option Value) :=
  fun w =>
    if redis_down env (OpGet key) then (w, inl redis_rejects)
    else (w, inr (entry_value <$> redis w !! key)).

Definition redis_setex (key : string) (seconds : Z) (v : Value) : M unit :=
  fun w =>
    if redis_down env (OpSetex key) then (w, inl redis_rejects)
    else (set_redis (insert key (mkEntry v seconds)) w, inr tt).

Definition redis_del (key : string) : M unit :=
  fun w =>
    if redis_down env (OpDel key) then (w, inl redis_rejects)
    else (set_redis (delete key) w, inr tt).

Definition redis_keys (pattern : string) : M (list string) :=
  fun w =>
    if redis_down env (OpKeys pattern) then (w, inl redis_rejects)
    else (w, inr (scan pattern (redis w))).

(** [TTL key]: the remaining seconds, [-2] when the key does not exist. *)
Definition redis_ttl (key : string) : M Z :=
  fun w =>
    if redis_down env (OpTtl key) then (w, inl redis_rejects)
    else (w, inr (match redis w !! key with
                  | Some e => entry_ttl e
                  | None => (-2)%Z
                  end)).

(** [generateId()], that is [uuidv4()]: the next identifier of the source. *)
Definition generateId : M string :=
  fun w => (bump_uuid w, inr (uuidv4 env (uuid_cursor w))).

(** [Math.random()]: the next draw of the source. *)
Definition random : M Q :=
  fun w => (bump_random w, inr (Math_random env (random_cursor w))).

(** [new Date().toISOString()]: the next reading of the clock. *)
Definition new_Date_toISOString : M string :=
  fun w => (bump_clock w, inr (now env (clock_cursor w))).

Definition booksDatabase_push (book : JValue) : M unit :=
  modify (set_booksDatabase (fun db => (db ++ [book])%list)).

(** *** [GET /books] *)

Definition get_books (user : User) : M Response :=
  try_catch
    (let cacheKey := REDIS_KEYS.userBooks (user_id user) in
     let* cachedBooks := redis_get cacheKey in
     match cachedBooks with
     | Some (VBooks parsedBooks) =>
         ret (mkResponse 200 (BooksBody "cache" parsedBooks (length parsedBooks)))
     | Some _ =>
         (* no other shape ever sits under a cache key: [reachable_key_shapes] *)
         throw (Error "unexpected cache value")
     | None =>
         let* w := get_world in
         let* userBooks := lift (filter_by_owner (user_id user) (booksDatabase w)) in
         redis_setex cacheKey 300 (VBooks userBooks) ;;
         ret (mkResponse 200 (BooksBody "database" userBooks (length userBooks)))
     end)
    (fun _ => ret internal_server_error).

(** *** [POST /books] *)

Definition post_books (user : User) (body : BookInput) : M Response :=
  try_catch
    (let* id := generateId in
     let* title := lift (call_trim "title" (in_title body)) in
     let* author := lift (call_trim "author" (in_author body)) in
     let* isbn := lift (trim_or_null "isbn" (in_isbn body)) in
     let publishedYear := or_null (in_publishedYear body) in
     let* genre := lift (trim_or_null "genre" (in_genre body)) in
     let* createdAt := new_Date_toISOString in
     let* updatedAt := new_Date_toISOString in
     let newBook :=
       JObj [("id", JStr id);
             ("userId", JStr (user_id user));
             ("title", title);
             ("author", author);
             ("isbn", isbn);
             ("publishedYear", publishedYear);
             ("genre", genre);
             ("createdAt", JStr createdAt);
             ("updatedAt", JStr updatedAt)] in
     booksDatabase_push newBook ;;
     redis_del (REDIS_KEYS.userBooks (user_id user)) ;;
     ret (mkResponse 201 (BookBody "Book added successfully" newBook)))
    (fun _ => ret internal_server_error).

(** *** [PUT /books/:id] *)

Definition not_found : Response :=
  mkResponse 404 (ErrorBody "Book not found or access denied").

Definition put_books (user : User) (bookId : string) (body : BookInput) : M Response :=
  try_catch
    (let* w := get_world in
     let* bookIndex := lift (findIndex_book bookId (user_id user) 0 (booksDatabase w)) in
     match bookIndex with
     | None => ret not_found
     | Some i =>
         let old := match booksDatabase w !! i with
                    | Some b => own_props b
                    | None => []
                    end in
         let* title := lift (call_trim "title" (in_title body)) in
         let* author := lift (call_trim "author" (in_author body)) in
         let* isbn := lift (trim_or_null "isbn" (in_isbn body)) in
         let publishedYear := or_null (in_publishedYear body) in
         let* genre := lift (trim_or_null "genre" (in_genre body)) in
         let* updatedAt := new_Date_toISOString in
         let updatedBook :=
           JObj (obj_set "updatedAt" (JStr updatedAt)
                (obj_set "genre" genre
                (obj_set "publishedYear" publishedYear
                (obj_set "isbn" isbn
                (obj_set "author" author
                (obj_set "title" title old)))))) in
         modify (set_booksDatabase (fun db => <[i := updatedBook]> db)) ;;
         redis_del (REDIS_KEYS.userBooks (user_id user)) ;;
         ret (mkResponse 200 (BookBody "Book updated successfully" updatedBook))
     end)
    (fun _ => ret internal_server_error).

(** *** [DELETE /books/:id] *)

Definition delete_books (user : User) (bookId : string) : M Response :=
  try_catch
    (let* w := get_world in
     let* bookIndex := lift (findIndex_book bookId (user_id user) 0 (booksDatabase w)) in
     match bookIndex with
     | None => ret not_found
     | Some i =>
         let deletedBook := default JNull (booksDatabase w !! i) in
         modify (set_booksDatabase (fun db => (take i db ++ drop (S i) db)%list)) ;;
         redis_del (REDIS_KEYS.userBooks (user_id user)) ;;
         ret (mkResponse 200 (BookBody "Book deleted successfully" deletedBook))
     end)
    (fun _ => ret internal_server_error).

(** *** [POST /books/bulk] *)

(** [{ ...book, id: generateId(), userId, createdAt, updatedAt }]. *)
Definition stamp_book (user : User) (book : JValue) : M JValue :=
  let* id := generateId in
  let* createdAt := new_Date_toISOString in
  let* updatedAt := new_Date_toISOString in
  ret (JObj (obj_set "updatedAt" (JStr updatedAt)
            (obj_set "createdAt" (JStr createdAt)
            (obj_set "userId" (JStr (user_id user))
            (obj_set "id" (JStr id) (own_props book)))))).

(** [books.map(book => ...)]. *)
Fixpoint stamp_books (user : User) (books : list JValue) : M (list JValue) :=
  match books with
  | [] => ret []
  | book :: rest =>
      let* b := stamp_book user book in
      let* bs := stamp_books user rest in
      ret (b :: bs)
  end.

Definition maxBatchSize : nat := 100.

Definition bad_request (msg : string) : Response :=
  mkResponse 400 (ErrorBody msg).

(** [books] is [req.body.books]: [None] when the body has no such field. *)
Definition post_books_bulk (user : User) (books : option JValue) : M Response :=
  try_catch
    (match books with
     | Some (JArr books) =>
         if Nat.eqb (length books) 0 then
           ret (bad_request "Books must be a non-empty array")
         else if Nat.ltb maxBatchSize (length books) then
           ret (bad_request "Maximum 100 books allowed per bulk request")
         else
           let* invalid := lift (first_invalid_book 0 books) in
           match invalid with
           | Some i => ret (bad_request (missing_fields_message i))
           | None =>
               let bulkKey := REDIS_KEYS.bulkBooks (user_id user) in
               let* stamped := stamp_books user books in
               let* queuedAt := new_Date_toISOString in
               let* requestId := generateId in
               let bulkData :=
                 {| bd_userId := user_id user;
                    bd_username := user_username user;
                    bd_userEmail := user_email user;
                    bd_books := stamped;
                    bd_queuedAt := queuedAt;
                    bd_requestId := requestId |} in
               redis_setex bulkKey 7200 (VQueue bulkData) ;;
               ret (mkResponse 202
                      (QueuedBody requestId (length books) queuedAt))
           end
     | _ => ret (bad_request "Books must be a non-empty array")
     end)
    (fun _ => ret internal_server_error).

(** *** The bulk processing cron job *)

Definition simulated_failure_rate : Q := 5 # 100.

(** The counters of the per-book loop:
    [(successCount, failCount, failedBooks)]. *)
Definition Tally : Type := (nat * nat * list FailedBook)%type.

(** One turn of [for (const book of books)]: the inner [try]/[catch]. *)
Definition process_book (book : JValue) (tally : Tally) : M Tally :=
  let '(successCount, failCount, failedBooks) := tally in
  try_catch
    (let* r := random in
     (if negb (Qle_bool simulated_failure_rate r)
      then throw (Error "Simulated database error")
      else ret tt) ;;
     booksDatabase_push book ;;
     ret (S successCount, failCount, failedBooks))
    (fun error =>
       let* title := lift (get_prop book "title") in
       let* author := lift (get_prop book "author") in
       ret (successCount, S failCount,
            (failedBooks ++ [mkFailedBook title author (message error)])%list)).

Fixpoint process_books (books : list JValue) (tally : Tally) : M Tally :=
  match books with
  | [] => ret tally
  | book :: rest =>
      let* tally' := process_book book tally in
      process_books rest tally'
  end.

(** The body of [for (const key of bulkKeys)], inside its [try]. *)
Definition processBulkBooks_key (key : string) : M unit :=
  let* bulkDataStr := redis_get key in
  match bulkDataStr with
  | None => ret tt
  | Some (VQueue bulkData) =>
      let userId := bd_userId bulkData in
      let books := bd_books bulkData in
      let* processedAt := new_Date_toISOString in
      let* tally := process_books books (0, 0, []) in
      let '(successCount, failCount, failedBooks) := tally in
      let statusKey := REDIS_KEYS.bulkStatus userId in
      let statusData :=
        {| sd_userId := userId;
           sd_username := bd_username bulkData;
           sd_userEmail := bd_userEmail bulkData;
           sd_requestId := bd_requestId bulkData;
           totalBooks := length books;
           successCount := successCount;
           failCount := failCount;
           failedBooks := failedBooks;
           sd_processedAt := processedAt;
           sd_queuedAt := bd_queuedAt bulkData;
           sd_status := "completed" |} in
      redis_setex statusKey 3600 (VStatus statusData) ;;
      redis_del (REDIS_KEYS.userBooks userId) ;;
      redis_del key
  | Some _ =>
      (* [books] is [undefined] in any other shape, which never sits under a
         queue key: [reachable_key_shapes] *)
      throw (Error "Cannot read properties of undefined (reading 'length')")
  end.

Definition processBulkBooks : M unit :=
  try_catch
    (let* bulkKeys := redis_keys REDIS_KEYS.allBulkKeys in
     if Nat.eqb (length bulkKeys) 0 then ret tt
     else
       for_of bulkKeys
         (fun key => try_catch (processBulkBooks_key key) (fun _ => ret tt)))
    (fun _ => ret tt).

(** *** Report rendering and delivery *)

(** [successCount / totalBooks * 100]; [None] stands for the non-number
    JavaScript yields when [totalBooks] is zero. *)
Definition success_rate (successCount totalBooks : nat) : option Q :=
  if Nat.eqb totalBooks 0 then None
  else Some ((Z.of_nat successCount # Pos.of_nat totalBooks) * 100)%Q.

Definition ensureReportsDirectory : M string :=
  if ensureDir_fails env then throw (Error "EACCES: permission denied")
  else ret (PDF_OUTPUT_DIR env).

Definition report_filename (requestId : string) : string :=
  "bulk-report-" +:+ requestId +:+ ".pdf".

(** [generateBulkReport]: resolves with [(filepath, filename)] once the file
    is written, rejects when the write stream fails. *)
Definition generateBulkReport (statusData : StatusData) : M (string * string) :=
  let filename := report_filename (sd_requestId statusData) in
  let filepath := path_join env (PDF_OUTPUT_DIR env) filename in
  if pdf_fails env (sd_requestId statusData)
  then throw (Error "PDF generation error")
  else
    modify (set_reports (fun fs => filepath :: fs)) ;;
    ret (filepath, filename).

(** The functions [require('nodemailer')] exports. *)
Definition nodemailer_exports : list string :=
  ["createTransport"; "createTestAccount"; "getTestMessageUrl"].

(** [createEmailTransporter]: it calls [nodemailer.createTransporter], a
    property the module does not have, so the call throws. *)
Definition createEmailTransporter : M unit :=
  if existsb (String.eqb "createTransporter") nodemailer_exports
  then ret tt
  else throw (TypeError_not_a_function "nodemailer.createTransporter").

(** [sendReportEmail]: builds the transporter, hands the message to it and
    returns once the transport has accepted it; whatever is thrown on the
    way is logged and thrown again. *)
Definition sendReportEmail (userEmail username pdfPath : string)
    (statusData : StatusData) : M bool :=
  try_catch
    (createEmailTransporter ;;
     (if sendMail_fails env userEmail
      then throw (Error "Email sending error")
      else
        modify (set_outbox (fun ms =>
          (ms ++ [mkMail userEmail username pdfPath
                         (success_rate (successCount statusData) (totalBooks statusData))
                         statusData])%list))) ;;
     ret true)
    (fun error => throw error).

Definition fs_remove (filepath : string) : M unit :=
  if fs_remove_fails env filepath
  then throw (Error "EBUSY: resource busy or locked")
  else modify (set_reports (List.filter (fun f => negb (String.eqb f filepath)))).

(** The body of [for (const key of statusKeys)], inside its [try]. *)
Definition generateAndSendReports_key (key : string) : M unit :=
  let* statusDataStr := redis_get key in
  match statusDataStr with
  | None => ret tt
  | Some (VStatus statusData) =>
      let* file := generateBulkReport statusData in
      let '(filepath, filename) := file in
      sendReportEmail (sd_userEmail statusData) (sd_username statusData)
                      filepath statusData ;;
      (if PDF_CLEANUP_AFTER_SEND env then fs_remove filepath else ret tt) ;;
      redis_del key
  | Some _ =>
      (* no other shape ever sits under a status key: [reachable_key_shapes] *)
      throw (Error "unexpected status value")
  end.

Definition generateAndSendReports : M unit :=
  try_catch
    (let* statusKeys := redis_keys REDIS_KEYS.allStatusKeys in
     if Nat.eqb (length statusKeys) 0 then ret tt
     else
       ensureReportsDirectory ;;
       for_of statusKeys
         (fun key => try_catch (generateAndSendReports_key key) (fun _ => ret tt)))
    (fun _ => ret tt).

(** *** [GET /books/queue] *)

Definition expires_in (ttl : Z) : ExpiresIn :=
  if (0 <? ttl)%Z then Seconds ttl else Unknown.

Definition get_books_queue (user : User) : M Response :=
  try_catch
    (let bulkKey := REDIS_KEYS.bulkBooks (user_id user) in
     let statusKey := REDIS_KEYS.bulkStatus (user_id user) in
     let* queueData := redis_get bulkKey in
     let* statusData := redis_get statusKey in
     match queueData, statusData with
     | None, None => ret (mkResponse 200 StageNone)
     | Some (VQueue parsedQueue), _ =>
         let* queueTtl := redis_ttl bulkKey in
         ret (mkResponse 200
                (StageQueued (length (bd_books parsedQueue))
                             (bd_requestId parsedQueue)
                             (bd_queuedAt parsedQueue)
                             (expires_in queueTtl)))
     | Some _, _ =>
         (* [parsedQueue.books] is [undefined] in any other shape, which never
            sits under a queue key: [reachable_key_shapes] *)
         throw (Error "Cannot read properties of undefined (reading 'length')")
     | None, Some (VStatus parsedStatus) =>
         let* statusTtl := redis_ttl statusKey in
         ret (mkResponse 200
                (StageProcessed (sd_requestId parsedStatus)
                                (totalBooks parsedStatus)
                                (successCount parsedStatus)
                                (failCount parsedStatus)
                                (sd_processedAt parsedStatus)
                                (expires_in statusTtl)))
     | None, Some _ =>
         (* no other shape ever sits under a status key: [reachable_key_shapes] *)
         throw (Error "unexpected status value")
     end)
    (fun _ => ret internal_server_error).

End Handlers.

(** ** Runs of the server *)

(** Whatever can happen next: a request of an authenticated user or the
    firing of one of the two cron jobs. *)
Inductive Event : Type :=
  | GetBooks (user : User)
  | PostBooks (user : User) (body : BookInput)
  | PutBooks (user : User) (bookId : string) (body : BookInput)
  | DeleteBooks (user : User) (bookId : string)
  | PostBooksBulk (user : User) (books : option JValue)
  | GetBooksQueue (user : User)
  | CronProcessBulkBooks
  | CronGenerateAndSendReports.

Definition step (env : Env) (ev : Event) (w : World) : World :=
  match ev with
  | GetBooks user => run (get_books env user) w
  | PostBooks user body => run (post_books env user body) w
  | PutBooks user bookId body => run (put_books env user bookId body) w
  | DeleteBooks user bookId => run (delete_books env user bookId) w
  | PostBooksBulk user books => run (post_books_bulk env user books) w
  | GetBooksQueue user => run (get_books_queue env user) w
  | CronProcessBulkBooks => run (processBulkBooks env) w
  | CronGenerateAndSendReports => run (generateAndSendReports env) w
  end.

(** The worlds the server can be in: started empty, then any events, each
    under its own environment. *)
Inductive reachable : World -> Prop :=
  | reachable_init : reachable initial_world
  | reachable_step env ev w : reachable w -> reachable (step env ev w).

(** * Vocabulary of the properties

    Closed forms of what the handlers compute (each proved equal to the
    handler it describes in the second part), the invariant of the key space
    and the sample runs the claims are instantiated on. *)

(** A pattern without [*]. *)
Fixpoint star_free (p : string) : bool :=
  match p with
  | EmptyString => true
  | String c p' => negb (Ascii.eqb c "*"%char) && star_free p'
  end.

(** ** Outcome of the per-book loop *)

(** The [n]-th call of [Math.random()] answers below the failure rate: the
    test [Math.random() < 0.05] of the loop throws on this draw. *)
Definition draw_fails (env : Env) (n : nat) : bool :=
  negb (Qle_bool (simulated_failure_rate) (Math_random env n)).

(** The books of a batch that are pushed to [booksDatabase], and those whose
    draw fails, when the first book takes draw number [c]. *)
Fixpoint applied (env : Env) (c : nat) (books : list JValue) : list JValue :=
  match books with
  | [] => []
  | b :: rest =>
      if draw_fails env c then applied env (S c) rest
      else b :: applied env (S c) rest
  end.

Fixpoint rejected (env : Env) (c : nat) (books : list JValue) : list JValue :=
  match books with
  | [] => []
  | b :: rest =>
      if draw_fails env c then b :: rejected env (S c) rest
      else rejected env (S c) rest
  end.

(** The element of [failedBooks] recorded for a book whose draw fails. *)
Definition failure_summary (book : JValue) : FailedBook :=
  {| fb_title := obj_get "title" (own_props book);
     fb_author := obj_get "author" (own_props book);
     fb_error := "Simulated database error" |}.

(** The world the loop over [books] leaves behind. *)
Definition after_books (env : Env) (books : list JValue) (w : World) : World :=
  {| redis := redis w;
     booksDatabase := (booksDatabase w ++ applied env (random_cursor w) books)%list;
     reports := reports w; outbox := outbox w;
     uuid_cursor := uuid_cursor w;
     random_cursor := random_cursor w + length books;
     clock_cursor := clock_cursor w |}.

(** ** Invariant of the key space *)

(** A queue entry sits under the queue key of its owner and holds between 1
    and 100 books, all objects; a status entry sits under the status key of
    its owner, with counters that add up to a positive total; a cached list
    sits under a cache key. *)
Definition queue_ok (key : string) (bd : BulkData) : Prop :=
  key = REDIS_KEYS.bulkBooks (bd_userId bd) /\
  1 <= length (bd_books bd) <= maxBatchSize /\
  Forall (fun b => is_object b = true) (bd_books bd).

Definition status_ok (key : string) (sd : StatusData) : Prop :=
  key = REDIS_KEYS.bulkStatus (sd_userId sd) /\
  1 <= totalBooks sd /\
  successCount sd + failCount sd = totalBooks sd /\
  length (failedBooks sd) = failCount sd.

Definition entry_ok (key : string) (e : Entry) : Prop :=
  match entry_value e with
  | VBooks _ => exists u, key = REDIS_KEYS.userBooks u
  | VQueue bd => queue_ok key bd
  | VStatus sd => status_ok key sd
  end.

Definition store_ok (m : gmap string Entry) : Prop :=
  forall key e, m !! key = Some e -> entry_ok key e.

(** A mail that went out reports on a non-empty batch and prints the success
    rate of its status data. *)
Definition mail_ok (m : Mail) : Prop :=
  1 <= totalBooks (mail_status m) /\
  mail_successRate m =
    success_rate (successCount (mail_status m)) (totalBooks (mail_status m)).

Definition world_ok (w : World) : Prop :=
  store_ok (redis w) /\
  Forall (fun b => is_object b = true) (booksDatabase w) /\
  Forall mail_ok (outbox w).

(** The status entry [processBulkBooks] builds for a queue entry, started in
    world [w]. *)
Definition status_of (env : Env) (bd : BulkData) (w : World) : StatusData :=
  {| sd_userId := bd_userId bd;
     sd_username := bd_username bd;
     sd_userEmail := bd_userEmail bd;
     sd_requestId := bd_requestId bd;
     totalBooks := length (bd_books bd);
     successCount := length (applied env (random_cursor w) (bd_books bd));
     failCount := length (rejected env (random_cursor w) (bd_books bd));
     failedBooks := map failure_summary (rejected env (random_cursor w) (bd_books bd));
     sd_processedAt := now env (clock_cursor w);
     sd_queuedAt := bd_queuedAt bd;
     sd_status := "completed" |}.

(** The four Redis commands of one pass over a queue key, in program order,
    each one reached only when its predecessors went through. *)
Definition key_pass (env : Env) (key : string) (bd : BulkData) (w : World)
  : World * (Exn + unit) :=
  let statusKey := REDIS_KEYS.bulkStatus (bd_userId bd) in
  let cacheKey := REDIS_KEYS.userBooks (bd_userId bd) in
  if redis_down env (OpGet key) then (w, inl redis_rejects)
  else
    let w1 := after_books env (bd_books bd) (bump_clock w) in
    if redis_down env (OpSetex statusKey) then (w1, inl redis_rejects)
    else
      let w2 := set_redis (insert statusKey
                  (mkEntry (VStatus (status_of env bd w)) 3600)) w1 in
      if redis_down env (OpDel cacheKey) then (w2, inl redis_rejects)
      else
        let w3 := set_redis (delete cacheKey) w2 in
        if redis_down env (OpDel key) then (w3, inl redis_rejects)
        else (set_redis (delete key) w3, inr tt).

(** The loop body of the processing job, with its [catch]. *)
Definition process_one (env : Env) (key : string) : M unit :=
  try_catch (processBulkBooks_key env key) (fun _ => ret tt).

(** ** Keys of one owner *)

(** The three keys of an owner read the same in both stores. *)
Definition same_for (u : string) (m m' : gmap string Entry) : Prop :=
  m !! REDIS_KEYS.userBooks u = m' !! REDIS_KEYS.userBooks u /\
  m !! REDIS_KEYS.bulkBooks u = m' !! REDIS_KEYS.bulkBooks u /\
  m !! REDIS_KEYS.bulkStatus u = m' !! REDIS_KEYS.bulkStatus u.

(** The path [generateBulkReport] writes to and the message
    [sendReportEmail] hands to the transport. *)
Definition report_path (env : Env) (sd : StatusData) : string :=
  path_join env (PDF_OUTPUT_DIR env) (report_filename (sd_requestId sd)).

Definition report_mail (env : Env) (sd : StatusData) : Mail :=
  mkMail (sd_userEmail sd) (sd_username sd) (report_path env sd)
         (success_rate (successCount sd) (totalBooks sd)) sd.

(** One pass over a status key: the read, the rendering, and the throw of
    [createEmailTransporter] in [sendReportEmail]; the hand-over of the mail,
    the cleanup and the delete of the key come after it in the program. *)
Definition report_pass (env : Env) (key : string) (sd : StatusData) (w : World)
  : World * (Exn + unit) :=
  let filepath := report_path env sd in
  if redis_down env (OpGet key) then (w, inl redis_rejects)
  else if pdf_fails env (sd_requestId sd) then (w, inl (Error "PDF generation error"))
  else (set_reports (fun fs => filepath :: fs) w,
        inl (TypeError_not_a_function "nodemailer.createTransporter")).

(** The path a pass over [key] writes a PDF to, if it gets that far. *)
Definition rendered_path (env : Env) (m : gmap string Entry) (key : string)
  : option string :=
  match entry_value <$> m !! key with
  | Some (VStatus sd) =>
      if redis_down env (OpGet key) || pdf_fails env (sd_requestId sd) then None
      else Some (report_path env sd)
  | _ => None
  end.

(** The loop body of the report job, with its [catch]. *)
Definition report_one (env : Env) (key : string) : M unit :=
  try_catch (generateAndSendReports_key env key) (fun _ => ret tt).

(** ** Outcome of a submission *)

(** A book carries its required fields: it is an object whose [title] and
    [author] are both truthy. *)
Definition carries_fields (book : JValue) : bool :=
  match book with
  | JObj fs => truthy (obj_get "title" fs) && truthy (obj_get "author" fs)
  | _ => false
  end.

(** A submitted book after [books.map]: the book's own properties with
    [id], [userId], [createdAt] and [updatedAt] set; [stamped] gives the
    [n]-th book of the batch the [c + n]-th identifier and the clock
    readings number [t + 2 n] and [t + 2 n + 1]. *)
Definition stamp (user : User) (id createdAt updatedAt : string) (book : JValue)
  : JValue :=
  JObj (obj_set "updatedAt" (JStr updatedAt)
       (obj_set "createdAt" (JStr createdAt)
       (obj_set "userId" (JStr (user_id user))
       (obj_set "id" (JStr id) (own_props book))))).

Fixpoint stamped (env : Env) (user : User) (c t : nat) (books : list JValue)
  : list JValue :=
  match books with
  | [] => []
  | b :: rest =>
      stamp user (uuidv4 env c) (now env t) (now env (S t)) b
        :: stamped env user (S c) (S (S t)) rest
  end.

(** [ids] identifiers have been drawn and the clock has been read [reads]
    times: stamping [n] books draws [n] and reads [2 n] times. *)
Definition advance (ids reads : nat) (w : World) : World :=
  {| redis := redis w; booksDatabase := booksDatabase w;
     reports := reports w; outbox := outbox w;
     uuid_cursor := uuid_cursor w + ids; random_cursor := random_cursor w;
     clock_cursor := clock_cursor w + reads |}.

(** The queue entry [POST /books/bulk] builds for [books] in world [w]. *)
Definition queue_entry (env : Env) (user : User) (books : list JValue) (w : World)
  : BulkData :=
  {| bd_userId := user_id user;
     bd_username := user_username user;
     bd_userEmail := user_email user;
     bd_books := stamped env user (uuid_cursor w) (clock_cursor w) books;
     bd_queuedAt := now env (clock_cursor w + 2 * length books);
     bd_requestId := uuidv4 env (uuid_cursor w + length books) |}.

(** The 202 answer to an accepted submission. *)
Definition accepted (env : Env) (books : list JValue) (w : World) : Response :=
  mkResponse 202
    (QueuedBody (uuidv4 env (uuid_cursor w + length books)) (length books)
                (now env (clock_cursor w + 2 * length books))).

(** ** Reads of the record store *)

(** [book.userId === u] on a stored record. *)
Definition owned_by (u : string) (book : JValue) : bool :=
  match obj_get "userId" (own_props book) with
  | Some (JStr s) => String.eqb s u
  | _ => false
  end.

(** ** Status codes *)

(** The HTTP status a handler run answers with. *)
Definition status_code (r : Exn + Response) : Z :=
  match r with
  | inr r => res_status r
  | inl _ => 500
  end.

(** A read of the owner's records that is not served from the cache: it
    answers 500, or the owner's records as the record store now holds them,
    tagged [database]. *)
Definition fresh_read (user : User) (w : World) : Prop :=
  forall env,
    let current := List.filter (owned_by (user_id user)) (booksDatabase w) in
    result (get_books env user) w = inr internal_server_error \/
    result (get_books env user) w =
      inr (mkResponse 200 (BooksBody "database" current (length current))).

(** [reaches w1 w2]: the server gets from [w1] to [w2] by some events. *)
Inductive reaches (w1 : World) : World -> Prop :=
  | reaches_refl : reaches w1 w1
  | reaches_step env ev w2 : reaches w1 w2 -> reaches w1 (step env ev w2).

(** The runs in which a change of [user]'s records is signalled as
    complete: a single-record route answers its success status, or a tick of
    the processing job consumes the owner's queue entry. *)
Inductive mutation_completed (env : Env) (user : User) (w : World) : World -> Prop :=
  | created body :
      status_code (result (post_books env user body) w) = 201%Z ->
      mutation_completed env user w (run (post_books env user body) w)
  | updated bookId body :
      status_code (result (put_books env user bookId body) w) = 200%Z ->
      mutation_completed env user w (run (put_books env user bookId body) w)
  | deleted bookId :
      status_code (result (delete_books env user bookId) w) = 200%Z ->
      mutation_completed env user w (run (delete_books env user bookId) w)
  | bulk_applied bd ttl :
      redis w !! REDIS_KEYS.bulkBooks (user_id user) = Some (mkEntry (VQueue bd) ttl) ->
      redis (run (processBulkBooks env) w) !! REDIS_KEYS.bulkBooks (user_id user) = None ->
      mutation_completed env user w (run (processBulkBooks env) w).

(** What an event can do to the cache key of owner [u]: leave it, delete it,
    or fill it with the owner's records as the record store holds them. *)
Definition cache_effect (u : string) (w w' : World) : Prop :=
  redis w' !! REDIS_KEYS.userBooks u = redis w !! REDIS_KEYS.userBooks u \/
  redis w' !! REDIS_KEYS.userBooks u = None \/
  redis w' !! REDIS_KEYS.userBooks u =
    Some (mkEntry (VBooks (List.filter (owned_by u) (booksDatabase w))) 300).


(** ** Sample runs *)

(** Every collaborator works and no draw falls below the failure rate. *)
Definition env_up : Env :=
  {| now := fun _ => "2024-01-01T00:00:00.000Z";
     uuidv4 := fun n => "uuid-" +:+ pretty n;
     Math_random := fun _ => (1 # 2)%Q;
     redis_down := fun _ => false;
     ensureDir_fails := false;
     pdf_fails := fun _ => false;
     sendMail_fails := fun _ => false;
     fs_remove_fails := fun _ => false;
     PDF_OUTPUT_DIR := "./reports";
     PDF_CLEANUP_AFTER_SEND := true;
     path_join := fun dir file => replace_first "./" "" dir +:+ "/" +:+ file |}.

Definition alice : User := mkUser "u1" "alice" "alice@example.com".

Definition dune : JValue :=
  JObj [("title", JStr "Dune"); ("author", JStr "Frank Herbert")].

Definition emma : JValue :=
  JObj [("title", JStr "Emma"); ("author", JStr "Jane Austen")].

(** Redis rejects the write of alice's status entry. *)
Definition env_status_down : Env :=
  {| now := now env_up; uuidv4 := uuidv4 env_up; Math_random := Math_random env_up;
     redis_down := fun op =>
       match op with
       | OpSetex key => String.eqb key (REDIS_KEYS.bulkStatus (user_id alice))
       | _ => false
       end;
     ensureDir_fails := false;
     pdf_fails := pdf_fails env_up; sendMail_fails := sendMail_fails env_up;
     fs_remove_fails := fs_remove_fails env_up;
     PDF_OUTPUT_DIR := PDF_OUTPUT_DIR env_up;
     PDF_CLEANUP_AFTER_SEND := PDF_CLEANUP_AFTER_SEND env_up;
     path_join := path_join env_up |}.

(** alice has submitted one book. *)
Definition w_queued : World :=
  step env_up (PostBooksBulk alice (Some (JArr [dune]))) initial_world.

(** A first attempt applied the book and then failed to store the status. *)
Definition w_retry : World := step env_status_down CronProcessBulkBooks w_queued.

(** The tick has run through. *)
Definition w_processed : World := step env_up CronProcessBulkBooks w_queued.


(** The queue entry of [w_queued] and the status entry of [w_processed]. *)
Definition dune_entry : BulkData := queue_entry env_up alice [dune] initial_world.

Definition dune_status : StatusData := status_of env_up dune_entry w_queued.

Definition bob : User := mkUser "u2" "bob" "bob@example.com".

Definition carol : User := mkUser "u3" "carol" "carol@example.com".

(** Redis rejects the write of bob's status entry. *)
Definition env_bob_down : Env :=
  {| now := now env_up; uuidv4 := uuidv4 env_up; Math_random := Math_random env_up;
     redis_down := fun op =>
       match op with
       | OpSetex key => String.eqb key (REDIS_KEYS.bulkStatus (user_id bob))
       | _ => false
       end;
     ensureDir_fails := false;
     pdf_fails := pdf_fails env_up; sendMail_fails := sendMail_fails env_up;
     fs_remove_fails := fs_remove_fails env_up;
     PDF_OUTPUT_DIR := PDF_OUTPUT_DIR env_up;
     PDF_CLEANUP_AFTER_SEND := PDF_CLEANUP_AFTER_SEND env_up;
     path_join := path_join env_up |}.

(** alice, bob and carol have each submitted a batch. *)
Definition w_three : World :=
  step env_up (PostBooksBulk carol (Some (JArr [dune; emma])))
    (step env_up (PostBooksBulk bob (Some (JArr [emma])))
       (step env_up (PostBooksBulk alice (Some (JArr [dune; emma; dune])))
          initial_world)).




(** The body [GET /books/queue] answers with. *)
Definition stage (env : Env) (user : User) (w : World) : option Body :=
  match result (get_books_queue env user) w with
  | inr r => Some (res_body r)
  | inl _ => None
  end.

(** * Further vocabulary: the routes beside the pipeline *)

(** [book.id === bookId && book.userId === u] on a stored record: the test
    of [findIndex] in [PUT] and [DELETE /books/:id]. *)
Definition record_matches (bookId u : string) (book : JValue) : bool :=
  match obj_get "id" (own_props book) with
  | Some (JStr s) => String.eqb s bookId
  | _ => false
  end && owned_by u book.

(** The five field expressions of [POST /books] and [PUT /books/:id] all
    evaluate: [title] and [author] are strings, [isbn] and [genre] are
    strings, [null] or absent. *)
Definition is_string (v : option JValue) : bool :=
  match v with Some (JStr _) => true | _ => false end.

Definition string_or_nullish (v : option JValue) : bool :=
  match v with None | Some JNull | Some (JStr _) => true | _ => false end.

Definition body_trims (body : BookInput) : bool :=
  is_string (in_title body) && is_string (in_author body) &&
  string_or_nullish (in_isbn body) && string_or_nullish (in_genre body).

(** A string, a boolean or [null]: the JSON text of such a value parses back
    to the value. *)
Definition json_scalar (v : JValue) : bool :=
  match v with JStr _ | JBool _ | JNull => true | _ => false end.

(** The values of the five field expressions, in program order, or what the
    first one that throws has thrown. *)
Definition book_fields (body : BookInput) : Exn + list (string * JValue) :=
  match call_trim "title" (in_title body) with
  | inl e => inl e
  | inr title =>
      match call_trim "author" (in_author body) with
      | inl e => inl e
      | inr author =>
          match trim_or_null "isbn" (in_isbn body) with
          | inl e => inl e
          | inr isbn =>
              match trim_or_null "genre" (in_genre body) with
              | inl e => inl e
              | inr genre =>
                  inr [("title", title); ("author", author); ("isbn", isbn);
                       ("publishedYear", or_null (in_publishedYear body));
                       ("genre", genre)]
              end
          end
      end
  end.

(** The record [POST /books] builds from these values in world [w]. *)
Definition created_book (env : Env) (user : User) (fields : list (string * JValue))
    (w : World) : JValue :=
  JObj (("id", JStr (uuidv4 env (uuid_cursor w))) ::
        ("userId", JStr (user_id user)) ::
        fields ++
        [("createdAt", JStr (now env (clock_cursor w)));
         ("updatedAt", JStr (now env (S (clock_cursor w))))])%list.

(** The record [PUT /books/:id] puts in the place of [old]. *)
Fixpoint obj_set_all (fields : list (string * JValue)) (fs : list (string * JValue))
  : list (string * JValue) :=
  match fields with
  | [] => fs
  | (k, v) :: rest => obj_set_all rest (obj_set k v fs)
  end.

Definition updated_book (env : Env) (fields : list (string * JValue)) (old : JValue)
    (w : World) : JValue :=
  JObj (obj_set "updatedAt" (JStr (now env (clock_cursor w)))
          (obj_set_all fields (own_props old))).

(** A sample body of [POST /books] and the world after alice posted it. *)
Definition dune_input : BookInput :=
  {| in_title := Some (JStr "  Dune "); in_author := Some (JStr "Frank Herbert");
     in_isbn := Some (JStr "9780441013593"); in_publishedYear := Some (JNum 1965);
     in_genre := None |}.

(** A body whose [title] is an array. *)
Definition array_title_input : BookInput :=
  {| in_title := Some (JArr [JStr "Dune"]); in_author := Some (JStr "Frank Herbert");
     in_isbn := None; in_publishedYear := None; in_genre := None |}.

Definition w_posted : World := step env_up (PostBooks alice dune_input) initial_world.



(** The report of a status entry is rendered: the key is read and the PDF
    is written. *)
Definition rendered (env : Env) (key : string) (sd : StatusData) : bool :=
  negb (redis_down env (OpGet key) || pdf_fails env (sd_requestId sd)).


(** The tick gets as far as its loop. *)
Definition tick_starts (env : Env) : bool :=
  negb (redis_down env (OpKeys REDIS_KEYS.allStatusKeys) || ensureDir_fails env).

(** ** Accounts: [POST /auth/signup], [POST /auth/login], [authenticateUser] *)

(** An element of [usersDatabase]; [acc_password] is what [hashPassword]
    returned. *)
Record Account : Type := mkAccount {
  acc_id : string;
  acc_username : string;
  acc_email : string;
  acc_password : string;
  acc_createdAt : string
}.

(** The server state the account routes see: the world of the book routes
    (for the identifier source) and [usersDatabase]. *)
Record Server : Type := mkServer {
  srv_world : World;
  usersDatabase : list Account
}.

Definition initial_server : Server :=
  {| srv_world := initial_world; usersDatabase := [] |}.

(** [bcrypt] and [jsonwebtoken] as one request sees them; [None] is a
    rejected promise or a throw. [jwt_sign id] is [generateToken(id)] (salt,
    clock and secret are the request's), [jwt_verify t] is the [userId] of
    [jwt.verify(t, secret)]. *)
Record AuthEnv : Type := mkAuthEnv {
  bcrypt_hash : string -> option string;
  bcrypt_compare : string -> string -> option bool;
  jwt_sign : string -> option string;
  jwt_verify : string -> option string
}.

(** The body of a signup or login request once the validators have let it
    through. *)
Record Credentials : Type := mkCredentials {
  cr_username : string;
  cr_email : string;
  cr_password : string
}.

Inductive AuthBody : Type :=
  | AuthFailure (error : string)
  | AuthSuccess (msg : string) (id username email : string)
                (createdAt : option string) (token : string)
  | Profile (id username email createdAt : string).

Record AuthResponse : Type := mkAuthResponse { auth_status : Z; auth_body : AuthBody }.

Definition auth_internal_error : AuthResponse :=
  mkAuthResponse 500 (AuthFailure "Internal server error").

(** [usersDatabase.find(u => u.email === email || u.username === username)]. *)
Definition taken (username email : string) (u : Account) : bool :=
  String.eqb (acc_email u) email || String.eqb (acc_username u) username.

Definition auth_signup (env : Env) (aenv : AuthEnv) (body : Credentials) (s : Server)
  : Server * AuthResponse :=
  match List.find (taken (cr_username body) (cr_email body)) (usersDatabase s) with
  | Some _ =>
      (s, mkAuthResponse 400
            (AuthFailure "User with this email or username already exists"))
  | None =>
      match bcrypt_hash aenv (cr_password body) with
      | None => (s, auth_internal_error)
      | Some hashedPassword =>
          let '(w1, id) := generateId env (srv_world s) in
          match id with
          | inl _ => (mkServer w1 (usersDatabase s), auth_internal_error)
          | inr id =>
              let '(w2, createdAt) := new_Date_toISOString env w1 in
              match createdAt with
              | inl _ => (mkServer w2 (usersDatabase s), auth_internal_error)
              | inr createdAt =>
                  let newUser :=
                    {| acc_id := id;
                       acc_username := cr_username body;
                       acc_email := cr_email body;
                       acc_password := hashedPassword;
                       acc_createdAt := createdAt |} in
                  let s1 := mkServer w2 (usersDatabase s ++ [newUser]) in
                  match jwt_sign aenv id with
                  | None => (s1, auth_internal_error)
                  | Some token =>
                      (s1, mkAuthResponse 201
                             (AuthSuccess "User created successfully"
                                id (cr_username body) (cr_email body)
                                (Some createdAt) token))
                  end
              end
          end
      end
  end.



Definition invalid_login : AuthResponse :=
  mkAuthResponse 401 (AuthFailure "Invalid email or password").

Definition auth_login (aenv : AuthEnv) (body : Credentials) (s : Server)
  : Server * AuthResponse :=
  match List.find (fun u => String.eqb (acc_email u) (cr_email body)) (usersDatabase s) with
  | None => (s, invalid_login)
  | Some user =>
      match bcrypt_compare aenv (cr_password body) (acc_password user) with
      | None => (s, auth_internal_error)
      | Some false => (s, invalid_login)
      | Some true =>
          match jwt_sign aenv (acc_id user) with
          | None => (s, auth_internal_error)
          | Some token =>
              (s, mkAuthResponse 200
                    (AuthSuccess "Login successful"
                       (acc_id user) (acc_username user) (acc_email user) None token))
          end
      end
  end.

(** The middleware in front of the book routes: a response when it answers
    itself, the account it stores in [req.user] when it calls [next()]. *)
Definition authenticateUser (aenv : AuthEnv) (authorization : option string) (s : Server)
  : AuthResponse + Account :=
  match option_map (replace_first "Bearer " "") authorization with
  | None | Some EmptyString =>
      inl (mkAuthResponse 401 (AuthFailure "Access denied. No token provided."))
  | Some token =>
      match jwt_verify aenv token with
      | None => inl (mkAuthResponse 401 (AuthFailure "Invalid token."))
      | Some userId =>
          match List.find (fun u => String.eqb (acc_id u) userId) (usersDatabase s) with
          | None => inl (mkAuthResponse 401 (AuthFailure "Invalid token. User not found."))
          | Some user => inr user
          end
      end
  end.

(** [GET /auth/me] behind [authenticateUser]. *)
Definition auth_me (aenv : AuthEnv) (authorization : option string) (s : Server)
  : AuthResponse :=
  match authenticateUser aenv authorization s with
  | inl r => r
  | inr user =>
      mkAuthResponse 200
        (Profile (acc_id user) (acc_username user) (acc_email user) (acc_createdAt user))
  end.

(** The [req.user] the book routes read. *)
Definition user_of (a : Account) : User :=
  mkUser (acc_id a) (acc_username a) (acc_email a).

(** ** [GET /admin/stats] *)

Record Stats : Type := mkStats {
  totalUsers : nat;
  stats_totalBooks : nat;
  pendingBulkJobs : nat;
  pendingReports : nat;
  stats_bulkKeys : list string;
  stats_statusKeys : list string
}.

Definition admin_stats (env : Env) (users : list Account) : M (option Stats) :=
  try_catch
    (let* bulkKeys := redis_keys env REDIS_KEYS.allBulkKeys in
     let* statusKeys := redis_keys env REDIS_KEYS.allStatusKeys in
     let* w := get_world in
     ret (Some {| totalUsers := length users;
                  stats_totalBooks := length (booksDatabase w);
                  pendingBulkJobs := length bulkKeys;
                  pendingReports := length statusKeys;
                  stats_bulkKeys := bulkKeys;
                  stats_statusKeys := statusKeys |}))
    (fun _ => ret None).

(** The contract of the two libraries between a request served under
    [aenv] and a later one served under [aenv']: a hash compares true with
    the password it was made from, and a signed token is not empty and still
    verifies to the id it was signed for. *)
Definition auth_libraries_agree (aenv aenv' : AuthEnv) : Prop :=
  (forall p h, bcrypt_hash aenv p = Some h -> bcrypt_compare aenv' p h = Some true) /\
  (forall id t, jwt_sign aenv id = Some t -> jwt_verify aenv' t = Some id /\ t <> "").

(** A sample of the libraries: the hash and the token are tagged copies. *)
Definition aenv_sample : AuthEnv :=
  {| bcrypt_hash := fun p => Some ("$2b$12$" +:+ p);
     bcrypt_compare := fun p h => Some (String.eqb h ("$2b$12$" +:+ p));
     jwt_sign := fun id => Some ("jwt." +:+ id);
     jwt_verify := fun t =>
       if String.prefix "jwt." t
       then Some (String.substring 4 (String.length t - 4) t) else None |}.

Definition alice_credentials : Credentials :=
  mkCredentials "alice" "alice@example.com" "secret1".

Definition s_alice : Server :=
  fst (auth_signup env_up aenv_sample alice_credentials initial_server).


(** The record [w_posted] holds. *)
Definition dune_posted : JValue :=
  JObj [("id", JStr "uuid-0"); ("userId", JStr "u1");
        ("title", JStr "Dune"); ("author", JStr "Frank Herbert");
        ("isbn", JStr "9780441013593"); ("publishedYear", JNum 1965);
        ("genre", JNull);
        ("createdAt", JStr "2024-01-01T00:00:00.000Z");
        ("updatedAt", JStr "2024-01-01T00:00:00.000Z")].

(** alice has posted a book and read her list, which filled her cache
    key; then she has also queued a batch. *)
Definition w_cached : World := step env_up (GetBooks alice) w_posted.

Definition w_cached_queued : World :=
  step env_up (PostBooksBulk alice (Some (JArr [dune]))) w_cached.

(** * Properties *)

(** ** Keys *)

Lemma append_inj_l (p s t : string) : p +:+ s = p +:+ t -> s = t.
Proof. induction p as [|c p IH]; simpl; [done|]. intros H; injection H; auto. Qed.

Lemma userBooks_inj u u' : REDIS_KEYS.userBooks u = REDIS_KEYS.userBooks u' -> u = u'.
Proof. apply append_inj_l. Qed.

Lemma bulkBooks_inj u u' : REDIS_KEYS.bulkBooks u = REDIS_KEYS.bulkBooks u' -> u = u'.
Proof. apply append_inj_l. Qed.

Lemma bulkStatus_inj u u' : REDIS_KEYS.bulkStatus u = REDIS_KEYS.bulkStatus u' -> u = u'.
Proof. apply append_inj_l. Qed.

Lemma userBooks_bulkBooks u u' : REDIS_KEYS.userBooks u <> REDIS_KEYS.bulkBooks u'.
Proof. discriminate. Qed.

Lemma userBooks_bulkStatus u u' : REDIS_KEYS.userBooks u <> REDIS_KEYS.bulkStatus u'.
Proof. discriminate. Qed.

Lemma bulkBooks_bulkStatus u u' : REDIS_KEYS.bulkBooks u <> REDIS_KEYS.bulkStatus u'.
Proof. discriminate. Qed.

Lemma glob_star_any (s : string) : glob_match "*" s = true.
Proof.
  induction s as [|c s IH]; [reflexivity|].
  simpl in *. exact IH.
Qed.

Lemma glob_prefix_star (p s : string) :
  star_free p = true ->
  glob_match (p +:+ "*") s = true <-> exists u, s = p +:+ u.
Proof.
  revert s. induction p as [|c p IH]; intros s Hp.
  - split; [eauto | intros _; apply glob_star_any].
  - simpl in Hp. apply andb_prop in Hp as [Hc Hp].
    apply negb_true_iff in Hc.
    change (String c p +:+ "*") with (String c (p +:+ "*")).
    cbn [glob_match]. rewrite Hc.
    destruct s as [|d s].
    + split; [discriminate | intros [u Hu]; discriminate].
    + rewrite andb_true_iff, Ascii.eqb_eq, (IH s Hp). split.
      * intros [-> [u ->]]. by exists u.
      * intros [u Hu]. injection Hu as -> ->. eauto.
Qed.

Lemma allBulkKeys_match (k : string) :
  glob_match REDIS_KEYS.allBulkKeys k = true <-> exists u, k = REDIS_KEYS.bulkBooks u.
Proof. exact (glob_prefix_star "bulk_books:user:" k eq_refl). Qed.

Lemma allStatusKeys_match (k : string) :
  glob_match REDIS_KEYS.allStatusKeys k = true <-> exists u, k = REDIS_KEYS.bulkStatus u.
Proof. exact (glob_prefix_star "bulk_status:user:" k eq_refl). Qed.

(** ** The per-book loop *)

Ltac unfold_M :=
  unfold bind, ret, throw, try_catch, lift, modify, get_world, run, result in *.

Lemma process_book_object env fs s f fb w :
  process_book env (JObj fs) (s, f, fb) w =
  if draw_fails env (random_cursor w)
  then (bump_random w, inr (s, S f, (fb ++ [failure_summary (JObj fs)])%list))
  else (set_booksDatabase (fun db => (db ++ [JObj fs])%list) (bump_random w),
        inr (S s, f, fb)).
Proof.
  unfold process_book, draw_fails, random, booksDatabase_push. unfold_M.
  destruct (Qle_bool _ _); reflexivity.
Qed.

Lemma process_books_objects env books :
  Forall (fun b => is_object b = true) books ->
  forall s f fb w,
    process_books env books (s, f, fb) w =
    (after_books env books w,
     inr (s + length (applied env (random_cursor w) books),
          f + length (rejected env (random_cursor w) books),
          (fb ++ map failure_summary (rejected env (random_cursor w) books))%list)).
Proof.
  induction 1 as [|b books Hb _ IH]; intros s f fb w.
  - cbn. unfold_M. unfold after_books. cbn.
    rewrite !Nat.add_0_r, !app_nil_r. by destruct w.
  - destruct b as [| | | | |fs]; try discriminate.
    cbn [process_books]. unfold bind at 1. rewrite process_book_object.
    unfold after_books. cbn [applied rejected length].
    destruct (draw_fails env (random_cursor w)); rewrite IH; unfold after_books; cbn;
      rewrite <- ?app_assoc; cbn; repeat f_equal; lia.
Qed.

Lemma applied_rejected_length env c books :
  length (applied env c books) + length (rejected env c books) = length books.
Proof.
  revert c; induction books as [|b books IH]; intros c; cbn; [done|].
  destruct (draw_fails env c); cbn; rewrite <- (IH (S c)); lia.
Qed.

(** ** Store invariant *)

Lemma processBulkBooks_key_queue env key bd ttl w :
  redis w !! key = Some (mkEntry (VQueue bd) ttl) ->
  Forall (fun b => is_object b = true) (bd_books bd) ->
  processBulkBooks_key env key w = key_pass env key bd w.
Proof.
  intros Hk Hobj. unfold processBulkBooks_key, key_pass.
  unfold bind at 1. unfold redis_get.
  destruct (redis_down env (OpGet key)); [done|].
  rewrite Hk. cbn [fmap option_fmap option_map entry_value].
  unfold new_Date_toISOString. unfold bind at 1.
  unfold bind at 1. rewrite (process_books_objects env _ Hobj). cbn [Nat.add].
  unfold bind at 1, redis_setex.
  destruct (redis_down env (OpSetex _)); [done|].
  unfold bind at 1, redis_del.
  destruct (redis_down env (OpDel (REDIS_KEYS.userBooks _))); [done|].
  destruct (redis_down env (OpDel key)); done.
Qed.

Lemma processBulkBooks_key_absent env key w :
  redis w !! key = None ->
  processBulkBooks_key env key w =
  if redis_down env (OpGet key) then (w, inl redis_rejects) else (w, inr tt).
Proof.
  intros Hk. unfold processBulkBooks_key, bind, redis_get.
  destruct (redis_down env (OpGet key)); [done|]. by rewrite Hk.
Qed.

Lemma processBulkBooks_key_other env key e w :
  redis w !! key = Some e ->
  (forall bd, entry_value e <> VQueue bd) ->
  fst (processBulkBooks_key env key w) = w.
Proof.
  intros Hk Hne. unfold processBulkBooks_key, bind, redis_get.
  destruct (redis_down env (OpGet key)); [done|]. rewrite Hk. cbn.
  destruct (entry_value e) eqn:He; try done. by destruct (Hne bulkData).
Qed.

Lemma store_ok_insert m key e :
  store_ok m -> entry_ok key e -> store_ok (<[key := e]> m).
Proof.
  intros Hm He k e'. rewrite lookup_insert. case_decide as Hk.
  - intros [= <-]. by subst.
  - apply Hm.
Qed.

Lemma store_ok_delete m key : store_ok m -> store_ok (delete key m).
Proof.
  intros Hm k e'. rewrite lookup_delete. case_decide; [done | apply Hm].
Qed.

Lemma Forall_applied (P : JValue -> Prop) env c books :
  Forall P books -> Forall P (applied env c books).
Proof.
  intros H; revert c; induction H as [|b books Hb _ IH]; intros c; cbn; [done|].
  destruct (draw_fails env c); auto.
Qed.

Lemma status_of_ok env key bd w :
  queue_ok key bd ->
  status_ok (REDIS_KEYS.bulkStatus (bd_userId bd)) (status_of env bd w).
Proof.
  intros (_ & Hlen & _). unfold status_ok; cbn. repeat split.
  - lia.
  - apply applied_rejected_length.
  - by rewrite length_map.
Qed.

Lemma key_pass_world_ok env key bd w :
  world_ok w -> queue_ok key bd ->
  world_ok (fst (key_pass env key bd w)).
Proof.
  intros (Hs & Hdb & Hout) Hq.
  assert (Hdb' : Forall (fun b => is_object b = true)
                   (booksDatabase (after_books env (bd_books bd) w))).
  { cbn. apply Forall_app; split; [done|]. apply Forall_applied, Hq. }
  pose proof (status_of_ok env key bd w Hq) as Hst.
  unfold key_pass.
  repeat (match goal with |- context [redis_down ?e ?o] =>
            destruct (redis_down e o) end);
    cbn [fst]; (split; [|split; [first [exact Hdb' | exact Hdb] | exact Hout]]); cbn;
    auto using store_ok_insert, store_ok_delete.
Qed.

Lemma process_one_run env key w :
  run (process_one env key) w = fst (processBulkBooks_key env key w).
Proof.
  unfold process_one, run, try_catch, ret.
  by destruct (processBulkBooks_key env key w) as [w' [e|[]]].
Qed.

Lemma process_one_queue env key bd ttl w :
  world_ok w ->
  redis w !! key = Some (mkEntry (VQueue bd) ttl) ->
  run (process_one env key) w = fst (key_pass env key bd w).
Proof.
  intros Hw Hk. rewrite process_one_run.
  destruct Hw as (Hs & _). specialize (Hs _ _ Hk) as (_ & _ & Hobj).
  by rewrite (processBulkBooks_key_queue env key bd ttl w Hk Hobj).
Qed.

Lemma process_one_cases env key w :
  world_ok w ->
  run (process_one env key) w = w \/
  exists bd ttl, redis w !! key = Some (mkEntry (VQueue bd) ttl) /\
                 queue_ok key bd /\
                 run (process_one env key) w = fst (key_pass env key bd w).
Proof.
  intros Hw. destruct (redis w !! key) as [[v ttl]|] eqn:Hk.
  - destruct v as [bs|bd|sd].
    + left. rewrite process_one_run.
      by apply (processBulkBooks_key_other env key _ w Hk).
    + right. exists bd, ttl. split; [done|]. split.
      * destruct Hw as (Hs & _). exact (Hs _ _ Hk).
      * by apply (process_one_queue env key bd ttl).
    + left. rewrite process_one_run.
      by apply (processBulkBooks_key_other env key _ w Hk).
  - left. rewrite process_one_run, processBulkBooks_key_absent by done.
    by destruct (redis_down env (OpGet key)).
Qed.

Lemma process_one_world_ok env key w :
  world_ok w -> world_ok (run (process_one env key) w).
Proof.
  intros Hw. destruct (process_one_cases env key w Hw) as [->|(bd & ttl & _ & Hq & ->)];
    [done|]. by apply key_pass_world_ok.
Qed.

(** ** Owners are handled independently *)

Lemma same_for_refl u m : same_for u m m.
Proof. by repeat split. Qed.

Lemma same_for_trans u m1 m2 m3 :
  same_for u m1 m2 -> same_for u m2 m3 -> same_for u m1 m3.
Proof. intros (?&?&?) (?&?&?). repeat split; congruence. Qed.

Ltac key_neq :=
  let H := fresh in
  intros H;
  first [ discriminate H
        | apply userBooks_inj in H; congruence
        | apply bulkBooks_inj in H; congruence
        | apply bulkStatus_inj in H; congruence ].

Ltac simpl_lookups :=
  repeat first
    [ rewrite lookup_insert_eq | rewrite lookup_delete_eq
    | rewrite lookup_insert_ne by key_neq
    | rewrite lookup_delete_ne by key_neq ].

Lemma key_pass_frame env u bd w :
  u <> bd_userId bd ->
  same_for u (redis w)
    (redis (fst (key_pass env (REDIS_KEYS.bulkBooks (bd_userId bd)) bd w))).
Proof.
  intros Hne. unfold key_pass.
  repeat (match goal with |- context [redis_down ?e ?o] =>
            destruct (redis_down e o) end);
    cbn; repeat split; by simpl_lookups.
Qed.

Lemma process_one_frame env u u' w :
  world_ok w -> u <> u' ->
  same_for u (redis w) (redis (run (process_one env (REDIS_KEYS.bulkBooks u')) w)).
Proof.
  intros Hw Hne.
  destruct (process_one_cases env (REDIS_KEYS.bulkBooks u') w Hw)
    as [->|(bd & ttl & _ & Hq & ->)]; [apply same_for_refl|].
  destruct Hq as (Hkey & _). apply bulkBooks_inj in Hkey as Hu.
  rewrite Hkey. apply key_pass_frame. congruence.
Qed.

Lemma process_loop_frame env u ks :
  NoDup ks ->
  (forall k, k ∈ ks -> exists u', k = REDIS_KEYS.bulkBooks u') ->
  forall w, world_ok w ->
    let w' := run (for_of ks (process_one env)) w in
    world_ok w' /\
    (REDIS_KEYS.bulkBooks u ∉ ks -> same_for u (redis w) (redis w')) /\
    (REDIS_KEYS.bulkBooks u ∈ ks ->
       exists w0, world_ok w0 /\ same_for u (redis w) (redis w0) /\
         same_for u (redis (run (process_one env (REDIS_KEYS.bulkBooks u)) w0))
                    (redis w')).
Proof.
  induction 1 as [|k ks Hk Hnd IH]; intros Hpat w Hw.
  - cbn. split; [done|]. split; [intros _; apply same_for_refl|].
    intros Hin. by apply elem_of_nil in Hin.
  - assert (Hrun : run (for_of (k :: ks) (process_one env)) w =
                   run (for_of ks (process_one env)) (run (process_one env k) w)).
    { cbn [for_of]. unfold run, bind.
      destruct (process_one env k w) as [w1 [e|[]]] eqn:Hone; [|done].
      unfold process_one, try_catch, ret in Hone.
      destruct (processBulkBooks_key env k w) as [? [?|[]]]; discriminate. }
    cbn zeta. rewrite Hrun.
    set (w1 := run (process_one env k) w).
    assert (Hw1 : world_ok w1) by by apply process_one_world_ok.
    destruct (IH (fun k' Hin => Hpat k' (list_elem_of_further _ _ _ Hin)) w1 Hw1)
      as (Hok & Hout & Hin).
    destruct (Hpat k (list_elem_of_here _ _)) as [u' ->].
    split; [exact Hok|]. split.
    + intros Hnin. apply not_elem_of_cons in Hnin as [Hne Hnin].
      eapply same_for_trans; [|by apply Hout].
      apply process_one_frame; [done | congruence].
    + intros Hel. apply elem_of_cons in Hel as [Heq|Hel].
      * apply bulkBooks_inj in Heq as <-.
        exists w. split; [done|]. split; [apply same_for_refl|].
        by apply Hout.
      * destruct (Hin Hel) as (w0 & Hw0 & Hsame & Hfin).
        exists w0. split; [done|]. split; [|done].
        eapply same_for_trans; [|exact Hsame].
        apply process_one_frame; [done|]. intros ->. by apply Hk.
Qed.

(** ** One tick of the processing job *)

Lemma scan_NoDup pattern m : NoDup (scan pattern m).
Proof.
  unfold scan. apply NoDup_ListNoDup, List.NoDup_filter, NoDup_ListNoDup.
  exact (NoDup_fst_map_to_list m).
Qed.

Lemma elem_of_scan pattern m k :
  k ∈ scan pattern m <-> is_Some (m !! k) /\ glob_match pattern k = true.
Proof.
  unfold scan. rewrite list_elem_of_In, filter_In, <- list_elem_of_In.
  change (map fst (map_to_list m)) with ((map_to_list m).*1).
  rewrite list_elem_of_fmap. split.
  - intros [([k' e] & -> & Hin) Hg]. split; [|done].
    apply elem_of_map_to_list in Hin. by exists e.
  - intros [[e He] Hg]. split; [|done]. exists (k, e). split; [done|].
    by apply elem_of_map_to_list.
Qed.

Lemma for_of_process_total env ks w :
  snd (for_of ks (process_one env) w) = inr tt.
Proof.
  revert w; induction ks as [|k ks IH]; intros w; [done|].
  cbn [for_of]. unfold bind.
  destruct (process_one env k w) as [w1 [e|[]]] eqn:Hone; [|apply IH].
  unfold process_one, try_catch, ret in Hone.
  destruct (processBulkBooks_key env k w) as [? [?|[]]]; discriminate.
Qed.

Lemma processBulkBooks_run env w :
  run (processBulkBooks env) w =
  if redis_down env (OpKeys REDIS_KEYS.allBulkKeys) then w
  else run (for_of (scan REDIS_KEYS.allBulkKeys (redis w)) (process_one env)) w.
Proof.
  unfold processBulkBooks.
  change (fun key => try_catch (processBulkBooks_key env key) (fun _ => ret tt))
    with (process_one env).
  unfold run, try_catch, bind, redis_keys.
  destruct (redis_down env _); [done|].
  destruct (scan REDIS_KEYS.allBulkKeys (redis w)) as [|k ks] eqn:Hs; [done|].
  cbn [length Nat.eqb].
  pose proof (for_of_process_total env (k :: ks) w) as Htot.
  by destruct (for_of (k :: ks) (process_one env) w) as [w' [e|[]]].
Qed.

Lemma processBulkBooks_world_ok env w :
  world_ok w -> world_ok (run (processBulkBooks env) w).
Proof.
  intros Hw. rewrite processBulkBooks_run.
  destruct (redis_down env _); [done|].
  destruct (process_loop_frame env "" (scan REDIS_KEYS.allBulkKeys (redis w)))
    with (w := w) as (Hok & _); [apply scan_NoDup | | done | done].
  intros k Hk. apply elem_of_scan in Hk as [_ Hk]. by apply allBulkKeys_match.
Qed.

(** An owner with a queue entry is handled exactly once per tick, from a
    world in which the owner's keys are as the tick found them, and nothing
    that happens for the other owners shows in the owner's keys. *)
Lemma processBulkBooks_owner env w u bd ttl :
  world_ok w ->
  redis w !! REDIS_KEYS.bulkBooks u = Some (mkEntry (VQueue bd) ttl) ->
  redis_down env (OpKeys REDIS_KEYS.allBulkKeys) = false ->
  exists w0,
    world_ok w0 /\ same_for u (redis w) (redis w0) /\
    same_for u (redis (fst (key_pass env (REDIS_KEYS.bulkBooks u) bd w0)))
               (redis (run (processBulkBooks env) w)).
Proof.
  intros Hw Hk Hscan. rewrite processBulkBooks_run, Hscan.
  destruct (process_loop_frame env u (scan REDIS_KEYS.allBulkKeys (redis w)))
    with (w := w) as (_ & _ & Hin); [apply scan_NoDup | | done |].
  { intros k Hk'. apply elem_of_scan in Hk' as [_ Hk']. by apply allBulkKeys_match. }
  destruct Hin as (w0 & Hw0 & Hsame & Hfin).
  { apply elem_of_scan. split; [by eexists|]. apply allBulkKeys_match. by exists u. }
  exists w0. split; [done|]. split; [done|].
  destruct Hsame as (_ & Hq & _). rewrite Hk in Hq.
  by rewrite <- (process_one_queue env _ bd ttl w0).
Qed.

(** An owner without a queue entry is not touched by the tick. *)
Lemma processBulkBooks_bystander env w u :
  world_ok w ->
  redis w !! REDIS_KEYS.bulkBooks u = None ->
  same_for u (redis w) (redis (run (processBulkBooks env) w)).
Proof.
  intros Hw Hk. rewrite processBulkBooks_run.
  destruct (redis_down env _); [apply same_for_refl|].
  destruct (process_loop_frame env u (scan REDIS_KEYS.allBulkKeys (redis w)))
    with (w := w) as (_ & Hout & _); [apply scan_NoDup | | done |].
  { intros k Hk'. apply elem_of_scan in Hk' as [_ Hk']. by apply allBulkKeys_match. }
  apply Hout. rewrite elem_of_scan, Hk. intros [[? ?] _]. discriminate.
Qed.

(** ** One tick of the report job *)

Lemma caught_total (m : M unit) w : snd (try_catch m (fun _ => ret tt) w) = inr tt.
Proof. unfold try_catch, ret. by destruct (m w) as [w' [e|[]]]. Qed.

Lemma for_of_total {A} (body : A -> M unit) ks :
  (forall k w, snd (body k w) = inr tt) ->
  forall w, snd (for_of ks body w) = inr tt.
Proof.
  intros Hb. induction ks as [|k ks IH]; intros w; [done|].
  cbn [for_of]. unfold bind. specialize (Hb k w).
  destruct (body k w) as [w1 [e|[]]]; [discriminate | apply IH].
Qed.

Lemma for_of_cons_run {A} (body : A -> M unit) k ks w :
  snd (body k w) = inr tt ->
  run (for_of (k :: ks) body) w = run (for_of ks body) (run (body k) w).
Proof.
  intros Hb. cbn [for_of]. unfold run, bind.
  by destruct (body k w) as [w1 [e|[]]].
Qed.

Lemma generateAndSendReports_key_status env key sd ttl w :
  redis w !! key = Some (mkEntry (VStatus sd) ttl) ->
  generateAndSendReports_key env key w = report_pass env key sd w.
Proof.
  intros Hk. unfold generateAndSendReports_key, report_pass.
  unfold bind at 1. unfold redis_get.
  destruct (redis_down env (OpGet key)); [done|].
  rewrite Hk. cbn [fmap option_fmap option_map entry_value].
  unfold generateBulkReport, sendReportEmail, createEmailTransporter, report_path.
  unfold_M.
  destruct (pdf_fails env _); [done|]. reflexivity.
Qed.

Lemma report_one_run env key w :
  run (report_one env key) w = fst (generateAndSendReports_key env key w).
Proof.
  unfold report_one, run, try_catch, ret.
  by destruct (generateAndSendReports_key env key w) as [w' [e|[]]].
Qed.

Lemma report_one_cases env key w :
  run (report_one env key) w = w \/
  exists sd ttl, redis w !! key = Some (mkEntry (VStatus sd) ttl) /\
                 run (report_one env key) w = fst (report_pass env key sd w).
Proof.
  rewrite report_one_run.
  destruct (redis w !! key) as [[v ttl]|] eqn:Hk.
  - destruct v as [bs|bd|sd].
    + left. unfold generateAndSendReports_key, bind, redis_get.
      destruct (redis_down env _); [done|]. by rewrite Hk.
    + left. unfold generateAndSendReports_key, bind, redis_get.
      destruct (redis_down env _); [done|]. by rewrite Hk.
    + right. exists sd, ttl. split; [done|].
      by rewrite (generateAndSendReports_key_status env key sd ttl).
  - left. unfold generateAndSendReports_key, bind, redis_get.
    destruct (redis_down env _); [done|]. by rewrite Hk.
Qed.

(** A pass changes nothing but the list of written files. *)
Lemma report_one_keeps env key w :
  run (report_one env key) w =
  match rendered_path env (redis w) key with
  | Some filepath => set_reports (fun fs => filepath :: fs) w
  | None => w
  end.
Proof.
  unfold rendered_path.
  destruct (report_one_cases env key w) as [Hrun|(sd & ttl & Hk & Hrun)].
  - rewrite Hrun. rewrite report_one_run in Hrun.
    destruct (redis w !! key) as [[v ttl]|] eqn:Hk; [|done].
    destruct v as [bs|bd|sd]; try done. cbn.
    rewrite (generateAndSendReports_key_status env key sd ttl w Hk) in Hrun.
    unfold report_pass in Hrun.
    destruct (redis_down env (OpGet key)); [done|].
    destruct (pdf_fails env (sd_requestId sd)); [done|].
    cbn in *. by rewrite Hrun.
  - rewrite Hrun, Hk. cbn. unfold report_pass.
    destruct (redis_down env (OpGet key)); [done|].
    by destruct (pdf_fails env (sd_requestId sd)).
Qed.

Lemma report_loop_keeps env ks w :
  run (for_of ks (report_one env)) w =
  set_reports (fun fs => (rev (omap (rendered_path env (redis w)) ks) ++ fs)%list) w.
Proof.
  revert w. induction ks as [|k ks IH]; intros w.
  - cbn. by destruct w.
  - rewrite for_of_cons_run by apply caught_total.
    rewrite IH, report_one_keeps. cbn [omap list_omap].
    destruct (rendered_path env (redis w) k) as [filepath|] eqn:Hr;
      cbn; rewrite ?Hr; cbn; [|done].
    unfold set_reports; cbn. f_equal. by rewrite <- app_assoc.
Qed.

Lemma generateAndSendReports_run env w :
  run (generateAndSendReports env) w =
  if redis_down env (OpKeys REDIS_KEYS.allStatusKeys) then w
  else if ensureDir_fails env then w
  else run (for_of (scan REDIS_KEYS.allStatusKeys (redis w)) (report_one env)) w.
Proof.
  unfold generateAndSendReports.
  change (fun key => try_catch (generateAndSendReports_key env key) (fun _ => ret tt))
    with (report_one env).
  unfold run, try_catch, bind, redis_keys.
  destruct (redis_down env _); [done|].
  destruct (scan REDIS_KEYS.allStatusKeys (redis w)) as [|k ks] eqn:Hs.
  { cbn. by destruct (ensureDir_fails env). }
  cbn [length Nat.eqb]. unfold ensureReportsDirectory.
  destruct (ensureDir_fails env); [done|]. unfold ret at 1.
  pose proof (for_of_total (report_one env) (k :: ks)
                (fun k w => caught_total _ w) w) as Htot.
  by destruct (for_of (k :: ks) (report_one env) w) as [w' [e|[]]].
Qed.

(** The report job leaves everything but the written files as it was: no
    status entry is deleted and no mail goes out. *)
Lemma generateAndSendReports_keeps env w :
  let w' := run (generateAndSendReports env) w in
  redis w' = redis w /\ booksDatabase w' = booksDatabase w /\
  outbox w' = outbox w /\ uuid_cursor w' = uuid_cursor w /\
  random_cursor w' = random_cursor w /\ clock_cursor w' = clock_cursor w.
Proof.
  cbn zeta. rewrite generateAndSendReports_run.
  destruct (redis_down env _); [done|]. destruct (ensureDir_fails env); [done|].
  by rewrite report_loop_keeps.
Qed.

Lemma generateAndSendReports_world_ok env w :
  world_ok w -> world_ok (run (generateAndSendReports env) w).
Proof.
  intros (Hs & Hdb & Hout).
  destruct (generateAndSendReports_keeps env w) as (Hr & Hd & Ho & _).
  unfold world_ok. by rewrite Hr, Hd, Ho.
Qed.

(** ** Bulk intake *)

Lemma first_invalid_book_none i books :
  first_invalid_book i books = inr None <->
  Forall (fun b => carries_fields b = true) books.
Proof.
  revert i; induction books as [|b books IH]; intros i.
  - split; [constructor | done].
  - rewrite Forall_cons, <- (IH (S i)).
    cbn [first_invalid_book].
    destruct b as [| | | | |fs]; cbn [get_prop carries_fields truthy negb];
      try (split; [discriminate | intros [[=] _]]).
    destruct (truthy (obj_get "title" fs)); cbn [negb andb];
      [|split; [discriminate | intros [[=] _]]].
    destruct (truthy (obj_get "author" fs)); cbn [negb andb]; [tauto|].
    split; [discriminate | intros [[=] _]].
Qed.

Lemma validated_items_are_objects i books :
  first_invalid_book i books = inr None ->
  Forall (fun b => is_object b = true) books.
Proof.
  intros Hv. apply first_invalid_book_none in Hv.
  eapply Forall_impl; [exact Hv|]. by intros [| | | | |fs].
Qed.

Lemma first_invalid_book_reports i pre bad post :
  Forall (fun b => carries_fields b = true) pre ->
  carries_fields bad = false -> bad <> JNull ->
  first_invalid_book i (pre ++ bad :: post) = inr (Some (i + length pre)).
Proof.
  intros Hpre Hbad Hnull. revert i.
  induction Hpre as [|b pre Hb _ IH]; intros i.
  - cbn [app length first_invalid_book]. rewrite Nat.add_0_r.
    destruct bad as [| | | | |fs]; cbn [get_prop carries_fields truthy negb] in *;
      try done.
    destruct (truthy (obj_get "title" fs)); cbn [negb andb] in *; [|done].
    by rewrite Hbad.
  - cbn [app length first_invalid_book].
    destruct b as [| | | | |fs]; cbn [carries_fields] in Hb; try discriminate.
    apply andb_prop in Hb as [Ht Ha]. cbn [get_prop]. rewrite Ht, Ha. cbn [negb].
    rewrite IH. do 2 f_equal. lia.
Qed.

Lemma first_invalid_book_null i pre post :
  Forall (fun b => carries_fields b = true) pre ->
  first_invalid_book i (pre ++ JNull :: post) = inl (TypeError_null "title").
Proof.
  intros Hpre. revert i. induction Hpre as [|b pre Hb _ IH]; intros i; [done|].
  cbn [app first_invalid_book].
  destruct b as [| | | | |fs]; cbn [carries_fields] in Hb; try discriminate.
  apply andb_prop in Hb as [Ht Ha]. cbn [get_prop]. rewrite Ht, Ha. cbn [negb].
  apply IH.
Qed.

Lemma stamp_books_run env user books w :
  stamp_books env user books w =
  (advance (length books) (2 * length books) w,
   inr (stamped env user (uuid_cursor w) (clock_cursor w) books)).
Proof.
  revert w; induction books as [|b books IH]; intros w.
  - cbn. unfold ret, advance. rewrite !Nat.add_0_r. by destruct w.
  - cbn [stamp_books stamped length]. unfold bind at 1.
    unfold stamp_book, generateId, new_Date_toISOString. unfold_M.
    rewrite IH. cbn. unfold advance. cbn. repeat f_equal; lia.
Qed.

Lemma stamped_length env user c t books :
  length (stamped env user c t books) = length books.
Proof. revert c t; induction books; intros c t; cbn; auto. Qed.

Lemma stamped_objects env user c t books :
  Forall (fun b => is_object b = true) (stamped env user c t books).
Proof. revert c t; induction books; intros c t; cbn; constructor; auto. Qed.

(** What a submission does, case by case. *)
Lemma post_books_bulk_array env user books w :
  post_books_bulk env user (Some (JArr books)) w =
  if Nat.eqb (length books) 0 then
    (w, inr (bad_request "Books must be a non-empty array"))
  else if Nat.ltb maxBatchSize (length books) then
    (w, inr (bad_request "Maximum 100 books allowed per bulk request"))
  else
    match first_invalid_book 0 books with
    | inl _ => (w, inr internal_server_error)
    | inr (Some i) => (w, inr (bad_request (missing_fields_message i)))
    | inr None =>
        let w1 := advance (S (length books)) (S (2 * length books)) w in
        if redis_down env (OpSetex (REDIS_KEYS.bulkBooks (user_id user)))
        then (w1, inr internal_server_error)
        else (set_redis (insert (REDIS_KEYS.bulkBooks (user_id user))
                           (mkEntry (VQueue (queue_entry env user books w)) 7200)) w1,
              inr (accepted env books w))
    end.
Proof.
  unfold post_books_bulk, try_catch.
  destruct (Nat.eqb (length books) 0); [done|].
  destruct (Nat.ltb maxBatchSize (length books)); [done|].
  unfold bind at 1, lift.
  destruct (first_invalid_book 0 books) as [e|[i|]]; [done..|].
  unfold bind at 1. rewrite stamp_books_run.
  unfold new_Date_toISOString, generateId, redis_setex. unfold_M. cbn -[Nat.mul].
  assert (Hw : bump_uuid (bump_clock (advance (length books) (2 * length books) w)) =
               advance (S (length books)) (S (2 * length books)) w).
  { unfold bump_uuid, bump_clock, advance; cbn. f_equal; lia. }
  rewrite Hw.
  destruct (redis_down env _); [done|]. done.
Qed.

Lemma post_books_bulk_not_array env user books w :
  (forall items, books <> Some (JArr items)) ->
  post_books_bulk env user books w =
  (w, inr (bad_request "Books must be a non-empty array")).
Proof.
  intros Hne. unfold post_books_bulk, try_catch, ret.
  destruct books as [[| | | |items|]|]; try done. by destruct (Hne items).
Qed.

Lemma queue_entry_ok env user books w :
  1 <= length books <= maxBatchSize ->
  queue_ok (REDIS_KEYS.bulkBooks (user_id user)) (queue_entry env user books w).
Proof.
  intros Hlen. split; [done|]. cbn. rewrite stamped_length.
  split; [done | apply stamped_objects].
Qed.

Lemma post_books_bulk_world_ok env user books w :
  world_ok w -> world_ok (run (post_books_bulk env user books) w).
Proof.
  intros Hw. unfold run.
  destruct books as [[| | | |items|]|];
    try (rewrite post_books_bulk_not_array by done; exact Hw).
  rewrite post_books_bulk_array.
  destruct (Nat.eqb (length items) 0) eqn:H0; [done|].
  destruct (Nat.ltb maxBatchSize (length items)) eqn:Hmax; [done|].
  destruct (first_invalid_book 0 items) as [e|[i|]]; [done..|].
  apply Nat.eqb_neq in H0. apply Nat.ltb_ge in Hmax.
  destruct Hw as (Hs & Hdb & Hout).
  destruct (redis_down env _); cbn; (split; [|by split]); cbn; [done|].
  apply store_ok_insert; [done|]. apply queue_entry_ok. lia.
Qed.

(** ** The cache-aside read path and the single-record routes *)

Lemma filter_by_owner_objects u db :
  Forall (fun b => is_object b = true) db ->
  filter_by_owner u db = inr (List.filter (owned_by u) db).
Proof.
  induction 1 as [|b db Hb _ IH]; [done|].
  cbn [filter_by_owner List.filter]. rewrite IH.
  destruct b as [| | | | |fs]; try discriminate.
  unfold prop_is, owned_by; cbn [get_prop own_props].
  by destruct (obj_get "userId" fs) as [[| | |s| |]|].
Qed.

Lemma findIndex_book_objects bookId u i db :
  Forall (fun b => is_object b = true) db ->
  exists r, findIndex_book bookId u i db = inr r.
Proof.
  intros H; revert i; induction H as [|b db Hb _ IH]; intros i; [by eexists|].
  cbn [findIndex_book]. destruct b as [| | | | |fs]; try discriminate.
  unfold prop_is; cbn [get_prop].
  destruct (obj_get "id" fs) as [[| | |s| |]|]; try apply IH.
  destruct (String.eqb s bookId); [|apply IH].
  destruct (obj_get "userId" fs) as [[| | |s'| |]|]; try apply IH.
  destruct (String.eqb s' u); [by eexists | apply IH].
Qed.

(** A read that finds no cache entry answers from the record store. *)
Lemma get_books_miss env user w :
  Forall (fun b => is_object b = true) (booksDatabase w) ->
  redis w !! REDIS_KEYS.userBooks (user_id user) = None ->
  let userBooks := List.filter (owned_by (user_id user)) (booksDatabase w) in
  get_books env user w =
  if redis_down env (OpGet (REDIS_KEYS.userBooks (user_id user)))
  then (w, inr internal_server_error)
  else if redis_down env (OpSetex (REDIS_KEYS.userBooks (user_id user)))
  then (w, inr internal_server_error)
  else (set_redis (insert (REDIS_KEYS.userBooks (user_id user))
                          (mkEntry (VBooks userBooks) 300)) w,
        inr (mkResponse 200 (BooksBody "database" userBooks (length userBooks)))).
Proof.
  intros Hdb Hk. cbn zeta. unfold get_books, try_catch, bind, redis_get.
  destruct (redis_down env (OpGet _)); [done|]. rewrite Hk. cbn.
  unfold lift. rewrite (filter_by_owner_objects _ _ Hdb).
  unfold redis_setex. by destruct (redis_down env (OpSetex _)).
Qed.

Lemma get_books_hit env user w e :
  redis w !! REDIS_KEYS.userBooks (user_id user) = Some e ->
  fst (get_books env user w) = w.
Proof.
  intros Hk. unfold get_books, try_catch, bind, redis_get.
  destruct (redis_down env (OpGet _)); [done|]. rewrite Hk. cbn.
  by destruct (entry_value e).
Qed.

Lemma get_books_world_ok env user w :
  world_ok w -> world_ok (run (get_books env user) w).
Proof.
  intros Hw. unfold run.
  destruct (redis w !! REDIS_KEYS.userBooks (user_id user)) as [e|] eqn:Hk.
  - by rewrite (get_books_hit env user w e).
  - destruct Hw as (Hs & Hdb & Hout). rewrite get_books_miss by done.
    destruct (redis_down env (OpGet _)); [done|].
    destruct (redis_down env (OpSetex _)); [done|].
    split; [|by split]. cbn. apply store_ok_insert; [done|]. by eexists.
Qed.

Lemma book_fields_trims body :
  if body_trims body then exists fields, book_fields body = inr fields
  else exists e, book_fields body = inl e.
Proof.
  unfold body_trims, book_fields, is_string, string_or_nullish.
  destruct body as [title author isbn year genre]; cbn.
  destruct title as [[| | |t| |]|]; cbn; eauto.
  destruct author as [[| | |a| |]|]; cbn; eauto.
  destruct isbn as [[| | |i| |]|]; cbn; eauto;
    destruct genre as [[| | |g| |]|]; cbn; eauto.
Qed.

Lemma post_books_run env user body w :
  post_books env user body w =
  match book_fields body with
  | inl _ => (bump_uuid w, inr internal_server_error)
  | inr fields =>
      let newBook := created_book env user fields w in
      let w1 := set_booksDatabase (fun db => (db ++ [newBook])%list)
                  (bump_clock (bump_clock (bump_uuid w))) in
      if redis_down env (OpDel (REDIS_KEYS.userBooks (user_id user)))
      then (w1, inr internal_server_error)
      else (set_redis (delete (REDIS_KEYS.userBooks (user_id user))) w1,
            inr (mkResponse 201 (BookBody "Book added successfully" newBook)))
  end.
Proof.
  unfold post_books, book_fields, created_book, generateId, new_Date_toISOString,
    booksDatabase_push, redis_del. unfold_M. cbn.
  destruct (call_trim "title" _) as [e|title]; [done|].
  destruct (call_trim "author" _) as [e|author]; [done|].
  destruct (trim_or_null "isbn" _) as [e|isbn]; [done|].
  destruct (trim_or_null "genre" _) as [e|genre]; [done|]. cbn.
  by destruct (redis_down env _).
Qed.

Lemma post_books_cases env user body w :
  post_books env user body w = (bump_uuid w, inr internal_server_error) \/
  exists newBook,
    is_object newBook = true /\
    post_books env user body w =
    let w1 := set_booksDatabase (fun db => (db ++ [newBook])%list)
                (bump_clock (bump_clock (bump_uuid w))) in
    if redis_down env (OpDel (REDIS_KEYS.userBooks (user_id user)))
    then (w1, inr internal_server_error)
    else (set_redis (delete (REDIS_KEYS.userBooks (user_id user))) w1,
          inr (mkResponse 201 (BookBody "Book added successfully" newBook))).
Proof.
  rewrite post_books_run. destruct (book_fields body) as [e|fields]; [by left|].
  right. eexists. split; [|reflexivity]. done.
Qed.

Lemma put_books_run env user bookId body w i :
  findIndex_book bookId (user_id user) 0 (booksDatabase w) = inr (Some i) ->
  put_books env user bookId body w =
  match book_fields body with
  | inl _ => (w, inr internal_server_error)
  | inr fields =>
      let updatedBook :=
        updated_book env fields (default (JObj []) (booksDatabase w !! i)) w in
      let w1 := set_booksDatabase (fun db => <[i := updatedBook]> db) (bump_clock w) in
      if redis_down env (OpDel (REDIS_KEYS.userBooks (user_id user)))
      then (w1, inr internal_server_error)
      else (set_redis (delete (REDIS_KEYS.userBooks (user_id user))) w1,
            inr (mkResponse 200 (BookBody "Book updated successfully" updatedBook)))
  end.
Proof.
  intros Hr.
  unfold put_books, book_fields, updated_book, new_Date_toISOString, redis_del.
  unfold_M. cbn. rewrite Hr. cbn.
  destruct (call_trim "title" _) as [e|title]; [done|].
  destruct (call_trim "author" _) as [e|author]; [done|].
  destruct (trim_or_null "isbn" _) as [e|isbn]; [done|].
  destruct (trim_or_null "genre" _) as [e|genre]; [done|]. cbn.
  destruct (booksDatabase w !! i) as [old|]; cbn;
    by destruct (redis_down env _).
Qed.

Lemma put_books_cases env user bookId body w :
  Forall (fun b => is_object b = true) (booksDatabase w) ->
  put_books env user bookId body w = (w, inr not_found) \/
  put_books env user bookId body w = (w, inr internal_server_error) \/
  exists i updatedBook,
    is_object updatedBook = true /\
    put_books env user bookId body w =
    let w1 := set_booksDatabase (fun db => <[i := updatedBook]> db) (bump_clock w) in
    if redis_down env (OpDel (REDIS_KEYS.userBooks (user_id user)))
    then (w1, inr internal_server_error)
    else (set_redis (delete (REDIS_KEYS.userBooks (user_id user))) w1,
          inr (mkResponse 200 (BookBody "Book updated successfully" updatedBook))).
Proof.
  intros Hdb.
  destruct (findIndex_book_objects bookId (user_id user) 0 _ Hdb) as [[i|] Hr].
  - rewrite (put_books_run env user bookId body w i Hr).
    destruct (book_fields body) as [e|fields]; [by right; left|].
    right; right. exists i. eexists. split; [|reflexivity]. done.
  - left. unfold put_books. unfold_M. cbn. by rewrite Hr.
Qed.

Lemma delete_books_cases env user bookId w :
  Forall (fun b => is_object b = true) (booksDatabase w) ->
  delete_books env user bookId w = (w, inr not_found) \/
  exists i deletedBook,
    delete_books env user bookId w =
    let w1 := set_booksDatabase (fun db => (take i db ++ drop (S i) db)%list) w in
    if redis_down env (OpDel (REDIS_KEYS.userBooks (user_id user)))
    then (w1, inr internal_server_error)
    else (set_redis (delete (REDIS_KEYS.userBooks (user_id user))) w1,
          inr (mkResponse 200 (BookBody "Book deleted successfully" deletedBook))).
Proof.
  intros Hdb.
  destruct (findIndex_book_objects bookId (user_id user) 0 _ Hdb) as [[i|] Hr].
  - right. exists i. eexists. unfold delete_books, redis_del; unfold_M; cbn.
    rewrite Hr; cbn. destruct (redis_down env _); reflexivity.
  - left. unfold delete_books. unfold_M. cbn. by rewrite Hr.
Qed.

Lemma post_books_world_ok env user body w :
  world_ok w -> world_ok (run (post_books env user body) w).
Proof.
  intros (Hs & Hdb & Hout). unfold run.
  destruct (post_books_cases env user body w) as [->|(nb & Hnb & ->)]; [done|].
  cbn zeta.
  destruct (redis_down env _); cbn; (split; [|split; [|done]]); cbn;
    auto using store_ok_delete; apply Forall_app; split; auto.
Qed.

Lemma put_books_world_ok env user bookId body w :
  world_ok w -> world_ok (run (put_books env user bookId body) w).
Proof.
  intros (Hs & Hdb & Hout). unfold run.
  destruct (put_books_cases env user bookId body w Hdb)
    as [->|[->|(i & ub & Hub & ->)]]; [done..|]. cbn zeta.
  destruct (redis_down env _); cbn; (split; [|split; [|done]]); cbn;
    auto using store_ok_delete; by apply Forall_insert.
Qed.

Lemma delete_books_world_ok env user bookId w :
  world_ok w -> world_ok (run (delete_books env user bookId) w).
Proof.
  intros (Hs & Hdb & Hout). unfold run.
  destruct (delete_books_cases env user bookId w Hdb)
    as [->|(i & ub & ->)]; [done|]. cbn zeta.
  destruct (redis_down env _); cbn; (split; [|split; [|done]]); cbn;
    auto using store_ok_delete;
    (apply Forall_app; split; [by apply Forall_take | by apply Forall_drop]).
Qed.

Lemma get_books_queue_pure env user w :
  run (get_books_queue env user) w = w.
Proof.
  unfold run, get_books_queue, try_catch, bind, redis_get, redis_ttl, ret, throw.
  destruct (redis_down env (OpGet (REDIS_KEYS.bulkBooks _))); [done|].
  destruct (redis_down env (OpGet (REDIS_KEYS.bulkStatus _))); [done|].
  destruct (redis w !! REDIS_KEYS.bulkBooks _) as [[[| |] ?]|]; cbn; try done.
  - by destruct (redis_down env (OpTtl _)).
  - destruct (redis w !! REDIS_KEYS.bulkStatus _) as [[[| |] ?]|]; cbn; try done.
    by destruct (redis_down env (OpTtl _)).
Qed.

(** ** Every reachable world satisfies the invariant *)

Lemma initial_world_ok : world_ok initial_world.
Proof.
  split; [|split; constructor]. intros k e. cbn. by rewrite lookup_empty.
Qed.

Lemma step_world_ok env ev w : world_ok w -> world_ok (step env ev w).
Proof.
  intros Hw. destruct ev; cbn [step].
  - by apply get_books_world_ok.
  - by apply post_books_world_ok.
  - by apply put_books_world_ok.
  - by apply delete_books_world_ok.
  - by apply post_books_bulk_world_ok.
  - by rewrite get_books_queue_pure.
  - by apply processBulkBooks_world_ok.
  - by apply generateAndSendReports_world_ok.
Qed.

Lemma reachable_world_ok w : reachable w -> world_ok w.
Proof. induction 1; [apply initial_world_ok | by apply step_world_ok]. Qed.

(** In particular each of the three key families only ever holds values of
    its own shape, so the branches of the handlers that meet another shape
    are never taken. *)
Lemma reachable_key_shapes w u e :
  reachable w ->
  (redis w !! REDIS_KEYS.userBooks u = Some e ->
   exists bs, entry_value e = VBooks bs) /\
  (redis w !! REDIS_KEYS.bulkBooks u = Some e ->
   exists bd, entry_value e = VQueue bd) /\
  (redis w !! REDIS_KEYS.bulkStatus u = Some e ->
   exists sd, entry_value e = VStatus sd).
Proof.
  intros Hreach. destruct (reachable_world_ok w Hreach) as (Hs & _).
  repeat split; intros Hk; specialize (Hs _ _ Hk); unfold entry_ok in Hs;
    destruct (entry_value e) as [bs|bd|sd]; eauto;
    first [ destruct Hs as [? Hs] | destruct Hs as (Hs & _) ]; discriminate.
Qed.

(** ** Accepted submissions *)

Lemma post_books_bulk_accepted_inv env user books w :
  status_code (result (post_books_bulk env user books) w) = 202%Z ->
  exists items,
    books = Some (JArr items) /\
    1 <= length items <= maxBatchSize /\
    Forall (fun b => carries_fields b = true) items /\
    redis_down env (OpSetex (REDIS_KEYS.bulkBooks (user_id user))) = false /\
    post_books_bulk env user books w =
    (set_redis (insert (REDIS_KEYS.bulkBooks (user_id user))
                  (mkEntry (VQueue (queue_entry env user items w)) 7200))
               (advance (S (length items)) (S (2 * length items)) w),
     inr (accepted env items w)).
Proof.
  unfold result. intros Hst.
  destruct books as [[| | | |items|]|];
    try (rewrite post_books_bulk_not_array in Hst by done; discriminate).
  exists items. split; [done|].
  rewrite post_books_bulk_array in Hst |- *.
  destruct (Nat.eqb (length items) 0) eqn:H0; [discriminate|].
  destruct (Nat.ltb maxBatchSize (length items)) eqn:Hmax; [discriminate|].
  destruct (first_invalid_book 0 items) as [e|[i|]] eqn:Hv; [discriminate..|].
  destruct (redis_down env _); [discriminate|].
  apply Nat.eqb_neq in H0. apply Nat.ltb_ge in Hmax.
  apply first_invalid_book_none in Hv. repeat split; [lia|lia|done].
Qed.

(** ** The per-book loop, item by item *)




Lemma key_pass_queue env u bd w :
  bd_userId bd = u ->
  let key := REDIS_KEYS.bulkBooks u in
  let w' := fst (key_pass env key bd w) in
  let failed :=
    redis_down env (OpGet key) ||
    redis_down env (OpSetex (REDIS_KEYS.bulkStatus u)) ||
    redis_down env (OpDel (REDIS_KEYS.userBooks u)) ||
    redis_down env (OpDel key) in
  (failed = true -> redis w' !! key = redis w !! key) /\
  (failed = false ->
   redis w' !! key = None /\
   redis w' !! REDIS_KEYS.bulkStatus u =
     Some (mkEntry (VStatus (status_of env bd w)) 3600) /\
   redis w' !! REDIS_KEYS.userBooks u = None).
Proof.
  intros <-. cbn zeta. unfold key_pass.
  repeat (match goal with |- context [redis_down ?e ?o] =>
            destruct (redis_down e o) end);
    cbn; split; intros; try discriminate; repeat split; by simpl_lookups.
Qed.

Lemma processBulkBooks_outcome env w u bd ttl :
  world_ok w ->
  redis w !! REDIS_KEYS.bulkBooks u = Some (mkEntry (VQueue bd) ttl) ->
  let key := REDIS_KEYS.bulkBooks u in
  let w' := run (processBulkBooks env) w in
  let failed :=
    redis_down env (OpKeys REDIS_KEYS.allBulkKeys) ||
    (redis_down env (OpGet key) ||
     redis_down env (OpSetex (REDIS_KEYS.bulkStatus u)) ||
     redis_down env (OpDel (REDIS_KEYS.userBooks u)) ||
     redis_down env (OpDel key)) in
  (redis w' !! key = None ->
   (exists sd, redis w' !! REDIS_KEYS.bulkStatus u = Some (mkEntry (VStatus sd) 3600) /\
               sd_requestId sd = bd_requestId bd /\
               totalBooks sd = length (bd_books bd)) /\
   redis w' !! REDIS_KEYS.userBooks u = None) /\
  (failed = true -> redis w' !! key = Some (mkEntry (VQueue bd) ttl)) /\
  (failed = false -> redis w' !! key = None).
Proof.
  intros Hw Hk. cbn zeta.
  destruct (redis_down env (OpKeys REDIS_KEYS.allBulkKeys)) eqn:Hscan.
  { rewrite processBulkBooks_run, Hscan, Hk. cbn [orb].
    split; [discriminate|]. split; [done | discriminate]. }
  cbn [orb].
  destruct (processBulkBooks_owner env w u bd ttl Hw Hk Hscan)
    as (w0 & Hw0 & (_ & Hsame & _) & (Hc & Hq & Hst)).
  rewrite Hk in Hsame.
  assert (Hu : bd_userId bd = u).
  { destruct Hw as (Hs & _). destruct (Hs _ _ Hk) as (Hkey & _).
    by apply bulkBooks_inj in Hkey. }
  destruct (key_pass_queue env u bd w0 Hu) as [Hkeep Hdone].
  rewrite <- Hq, <- Hst, <- Hc.
  destruct (redis_down env (OpGet _) || redis_down env (OpSetex _) ||
            redis_down env (OpDel (REDIS_KEYS.userBooks u)) ||
            redis_down env (OpDel (REDIS_KEYS.bulkBooks u))) eqn:Hfail.
  - rewrite (Hkeep eq_refl), <- Hsame.
    split; [discriminate|]. split; [done | discriminate].
  - destruct (Hdone eq_refl) as (Hnone & Hstatus & Hcache).
    split; [|split; [discriminate | done]].
    intros _. split; [|done]. by exists (status_of env bd w0).
Qed.

(** The files a tick of the report job writes. *)
Lemma generateAndSendReports_reports env w :
  reports (run (generateAndSendReports env) w) =
  ((if tick_starts env
    then rev (omap (rendered_path env (redis w))
                   (scan REDIS_KEYS.allStatusKeys (redis w)))
    else []) ++ reports w)%list.
Proof.
  rewrite generateAndSendReports_run. unfold tick_starts.
  destruct (redis_down env _); [done|]. destruct (ensureDir_fails env); [done|].
  by rewrite report_loop_keeps.
Qed.

Lemma rendered_path_status env m key sd ttl :
  m !! key = Some (mkEntry (VStatus sd) ttl) ->
  rendered_path env m key =
  if rendered env key sd then Some (report_path env sd) else None.
Proof.
  intros Hk. unfold rendered_path, rendered. rewrite Hk. cbn.
  by destruct (redis_down env _ || pdf_fails env _).
Qed.

(** What one tick of the report job does for a status entry. *)
Lemma report_tick_entry env w key sd ttl :
  world_ok w ->
  redis w !! key = Some (mkEntry (VStatus sd) ttl) ->
  let w' := run (generateAndSendReports env) w in
  outbox w' = outbox w /\
  redis w' !! key = Some (mkEntry (VStatus sd) ttl) /\
  (tick_starts env = true -> rendered env key sd = true ->
   exists new, reports w' = (new ++ reports w)%list /\ report_path env sd ∈ new).
Proof.
  intros Hw Hk. cbn zeta.
  destruct (generateAndSendReports_keeps env w) as (Hr & _ & Ho & _).
  split; [done|]. split; [by rewrite Hr|].
  intros Hstart Hrend. rewrite generateAndSendReports_reports, Hstart.
  eexists. split; [done|].
  rewrite list_elem_of_In, <- in_rev, <- list_elem_of_In, list_elem_of_omap.
  exists key. split.
  - apply elem_of_scan. split; [by eexists|]. apply allStatusKeys_match.
    destruct Hw as (Hs & _). destruct (Hs _ _ Hk) as (-> & _). by eexists.
  - by rewrite (rendered_path_status env _ key sd ttl Hk), Hrend.
Qed.

(** The four parts of the intake contract on batches that hold no [null]:
    an empty batch and a batch of 101 books are answered with 400 and leave
    the world as it was; a batch of 1 to 100 books that all carry their
    fields is queued and answered with 202 when the store takes the write; a
    batch within the bounds whose first book without its fields is not
    [null] is answered with 400 naming the index of that book and leaves the
    world as it was. *)
Lemma post_books_bulk_contract env user w :
  post_books_bulk env user (Some (JArr [])) w =
    (w, inr (bad_request "Books must be a non-empty array")) /\
  (forall books, length books = S maxBatchSize ->
     post_books_bulk env user (Some (JArr books)) w =
       (w, inr (bad_request "Maximum 100 books allowed per bulk request"))) /\
  (forall books, 1 <= length books <= maxBatchSize ->
     Forall (fun b => carries_fields b = true) books ->
     redis_down env (OpSetex (REDIS_KEYS.bulkBooks (user_id user))) = false ->
     result (post_books_bulk env user (Some (JArr books))) w =
       inr (accepted env books w) /\
     redis (run (post_books_bulk env user (Some (JArr books))) w)
       !! REDIS_KEYS.bulkBooks (user_id user) =
       Some (mkEntry (VQueue (queue_entry env user books w)) 7200)) /\
  (forall pre bad post,
     length (pre ++ bad :: post) <= maxBatchSize ->
     Forall (fun b => carries_fields b = true) pre ->
     carries_fields bad = false -> bad <> JNull ->
     post_books_bulk env user (Some (JArr (pre ++ bad :: post))) w =
       (w, inr (bad_request (missing_fields_message (length pre))))).
Proof.
  split; [|split; [|split]].
  - by rewrite post_books_bulk_array.
  - intros books Hlen. by rewrite post_books_bulk_array, Hlen.
  - intros books Hlen Hcarry Hup. unfold result, run.
    rewrite post_books_bulk_array.
    destruct (Nat.eqb_neq (length books) 0) as [_ ->]; [|lia].
    destruct (Nat.ltb_ge maxBatchSize (length books)) as [_ ->]; [|lia].
    destruct (first_invalid_book_none 0 books) as [_ ->]; [|done].
    cbn zeta. rewrite Hup. split; [done|]. cbn. by rewrite lookup_insert_eq.
  - intros pre bad post Hlen Hpre Hbad Hnull. rewrite post_books_bulk_array.
    destruct (Nat.eqb_neq (length (pre ++ bad :: post)) 0) as [_ ->].
    2:{ rewrite length_app. cbn. lia. }
    destruct (Nat.ltb_ge maxBatchSize (length (pre ++ bad :: post))) as [_ ->]; [|lia].
    by rewrite first_invalid_book_reports.
Qed.

(** Wherever the first book without its fields is [null], the answer is the
    500 of the route's catch-all and the world stays as it was. *)
Lemma post_books_bulk_null_item env user w pre post :
  length (pre ++ JNull :: post) <= maxBatchSize ->
  Forall (fun b => carries_fields b = true) pre ->
  post_books_bulk env user (Some (JArr (pre ++ JNull :: post))) w =
    (w, inr internal_server_error).
Proof.
  intros Hlen Hpre. rewrite post_books_bulk_array.
  destruct (Nat.eqb_neq (length (pre ++ JNull :: post)) 0) as [_ ->].
  2:{ rewrite length_app. cbn. lia. }
  destruct (Nat.ltb_ge maxBatchSize (length (pre ++ JNull :: post))) as [_ ->]; [|lia].
  by rewrite first_invalid_book_null.
Qed.

Lemma fresh_read_after_invalidate user w :
  world_ok w ->
  redis w !! REDIS_KEYS.userBooks (user_id user) = None ->
  fresh_read user w.
Proof.
  intros (_ & Hdb & _) Hk env. cbn zeta. unfold result.
  rewrite get_books_miss by done. cbn zeta.
  destruct (redis_down env (OpGet _)); [by left|].
  destruct (redis_down env (OpSetex _)); [by left | by right].
Qed.

Lemma reaches_trans w1 w2 w3 : reaches w1 w2 -> reaches w2 w3 -> reaches w1 w3.
Proof. intros H12 H23. induction H23; [done | by apply reaches_step]. Qed.

Lemma reaches_world_ok w1 w2 : world_ok w1 -> reaches w1 w2 -> world_ok w2.
Proof. intros Hw H. induction H; [done | by apply step_world_ok]. Qed.

Lemma lookup_delete_cache (m : gmap string Entry) u u' :
  delete (REDIS_KEYS.userBooks u') m !! REDIS_KEYS.userBooks u =
    m !! REDIS_KEYS.userBooks u \/
  delete (REDIS_KEYS.userBooks u') m !! REDIS_KEYS.userBooks u = None.
Proof.
  destruct (decide (u' = u)) as [->|Hne].
  - right. apply lookup_delete_eq.
  - left. apply lookup_delete_ne. key_neq.
Qed.

Lemma key_pass_cache env u bd w :
  bd_userId bd = u ->
  let w' := fst (key_pass env (REDIS_KEYS.bulkBooks u) bd w) in
  redis w' !! REDIS_KEYS.userBooks u = redis w !! REDIS_KEYS.userBooks u \/
  redis w' !! REDIS_KEYS.userBooks u = None.
Proof.
  intros <-. cbn zeta. unfold key_pass.
  repeat (match goal with |- context [redis_down ?e ?o] =>
            destruct (redis_down e o) end);
    cbn; first [ left; by simpl_lookups | right; by simpl_lookups ].
Qed.

Lemma step_cache_effect env ev w u :
  world_ok w -> cache_effect u w (step env ev w).
Proof.
  intros Hw. pose proof Hw as (Hs & Hdb & _). unfold cache_effect.
  destruct ev as [user|user body|user bookId body|user bookId|user books|user| |];
    cbn [step].
  - (* GET /books *)
    unfold run.
    destruct (redis w !! REDIS_KEYS.userBooks (user_id user)) as [e|] eqn:Hk.
    { left. by rewrite (get_books_hit env user w e). }
    rewrite get_books_miss by done. cbn zeta.
    destruct (redis_down env (OpGet _)); [by left|].
    destruct (redis_down env (OpSetex _)); [by left|]. cbn.
    destruct (decide (user_id user = u)) as [->|Hne].
    + right; right. by rewrite lookup_insert_eq.
    + left. apply lookup_insert_ne. key_neq.
  - (* POST /books *)
    unfold run. destruct (post_books_cases env user body w) as [->|(nb & _ & ->)];
      [by left|].
    cbn zeta. destruct (redis_down env _); cbn; [by left|].
    destruct (lookup_delete_cache (redis w) u (user_id user)); auto.
  - (* PUT /books/:id *)
    unfold run. destruct (put_books_cases env user bookId body w Hdb)
      as [->|[->|(i & ub & _ & ->)]]; [by left..|].
    cbn zeta. destruct (redis_down env _); cbn; [by left|].
    destruct (lookup_delete_cache (redis w) u (user_id user)); auto.
  - (* DELETE /books/:id *)
    unfold run. destruct (delete_books_cases env user bookId w Hdb)
      as [->|(i & ub & ->)]; [by left|].
    cbn zeta. destruct (redis_down env _); cbn; [by left|].
    destruct (lookup_delete_cache (redis w) u (user_id user)); auto.
  - (* POST /books/bulk *)
    left. unfold run.
    destruct books as [[| | | |items|]|];
      try (by rewrite post_books_bulk_not_array).
    rewrite post_books_bulk_array.
    destruct (Nat.eqb (length items) 0); [done|].
    destruct (Nat.ltb maxBatchSize (length items)); [done|].
    destruct (first_invalid_book 0 items) as [e|[i|]]; [done..|].
    cbn zeta. destruct (redis_down env _); cbn; [done|].
    apply lookup_insert_ne. key_neq.
  - (* GET /books/queue *)
    left. by rewrite get_books_queue_pure.
  - (* the processing job *)
    destruct (redis w !! REDIS_KEYS.bulkBooks u) as [[v ttl]|] eqn:Hq.
    2:{ left. by destruct (processBulkBooks_bystander env w u Hw Hq) as (<- & _). }
    destruct (redis_down env (OpKeys REDIS_KEYS.allBulkKeys)) eqn:Hscan.
    { left. by rewrite processBulkBooks_run, Hscan. }
    pose proof (Hs _ _ Hq) as Hok. unfold entry_ok in Hok. cbn in Hok.
    destruct v as [bs|bd|sd];
      [destruct Hok as [? ?]; discriminate | | destruct Hok as (? & _); discriminate].
    destruct Hok as (Hkey & _). apply bulkBooks_inj in Hkey.
    destruct (processBulkBooks_owner env w u bd ttl Hw Hq Hscan)
      as (w0 & _ & (Hsame & _) & (Hfin & _)).
    rewrite <- Hfin, Hsame.
    destruct (key_pass_cache env u bd w0 (eq_sym Hkey)); auto.
  - (* the report job *)
    left. by destruct (generateAndSendReports_keeps env w) as (-> & _).
Qed.

(** Once the cache key of [u] is gone, whatever the cache later holds for [u]
    was read from the record store at some later moment. *)
Lemma cache_filled_after_invalidate u w1 w2 :
  world_ok w1 ->
  redis w1 !! REDIS_KEYS.userBooks u = None ->
  reaches w1 w2 ->
  redis w2 !! REDIS_KEYS.userBooks u = None \/
  exists wj ttl,
    reaches w1 wj /\ reaches wj w2 /\
    redis w2 !! REDIS_KEYS.userBooks u =
      Some (mkEntry (VBooks (List.filter (owned_by u) (booksDatabase wj))) ttl).
Proof.
  intros Hw1 Hnone Hreach. induction Hreach as [|env ev w2 Hreach IH]; [by left|].
  pose proof (reaches_world_ok w1 w2 Hw1 Hreach) as Hw2.
  destruct (step_cache_effect env ev w2 u Hw2) as [Hsame|[Hdel|Hfill]].
  - rewrite Hsame. destruct IH as [IH|(wj & ttl & H1 & H2 & IH)]; [by left|].
    right. exists wj, ttl. split; [done|]. split; [|done].
    by apply reaches_step.
  - by left.
  - right. exists w2, 300%Z. split; [done|]. split; [|done].
    apply reaches_step, reaches_refl.
Qed.

Lemma get_books_from_cache env user w data count :
  result (get_books env user) w = inr (mkResponse 200 (BooksBody "cache" data count)) ->
  exists ttl, redis w !! REDIS_KEYS.userBooks (user_id user) =
              Some (mkEntry (VBooks data) ttl).
Proof.
  unfold result, get_books, try_catch, bind, redis_get, lift, redis_setex, get_world.
  destruct (redis_down env (OpGet _)); [discriminate|].
  destruct (redis w !! REDIS_KEYS.userBooks (user_id user)) as [[v ttl]|]; cbn.
  - destruct v as [bs| |]; try discriminate. intros [= <- _]. by exists ttl.
  - destruct (filter_by_owner _ _); [discriminate|]. cbn.
    destruct (redis_down env (OpSetex _)); discriminate.
Qed.

(** ** Identifiers of the applied records *)




Lemma reachable_w_queued : reachable w_queued.
Proof. apply reachable_step, reachable_init. Qed.

Lemma reachable_w_retry : reachable w_retry.
Proof. apply reachable_step, reachable_w_queued. Qed.

Lemma reachable_w_processed : reachable w_processed.
Proof. apply reachable_step, reachable_w_queued. Qed.

Lemma success_rate_defined successCount totalBooks :
  1 <= totalBooks -> exists rate, success_rate successCount totalBooks = Some rate.
Proof.
  intros Htot. unfold success_rate. destruct totalBooks; [lia | by eexists].
Qed.

(** ** The scenarios of the spec *)

(** Scenario A of the spec: three books are queued and processed and the
    report is rendered; it is not delivered, and the status entry stays. *)
Example scenario_A :
  let w1 := step env_up (PostBooksBulk alice (Some (JArr [dune; emma; dune])))
                 initial_world in
  let w2 := step env_up CronProcessBulkBooks w1 in
  let w3 := step env_up CronGenerateAndSendReports w2 in
  stage env_up alice w1 =
    Some (StageQueued 3 "uuid-3" "2024-01-01T00:00:00.000Z" (Seconds 7200)) /\
  stage env_up alice w2 =
    Some (StageProcessed "uuid-3" 3 3 0 "2024-01-01T00:00:00.000Z" (Seconds 3600)) /\
  stage env_up alice w3 =
    Some (StageProcessed "uuid-3" 3 3 0 "2024-01-01T00:00:00.000Z" (Seconds 3600)) /\
  outbox w3 = [] /\ reports w3 = ["reports/bulk-report-uuid-3.pdf"].
Proof. by vm_compute. Qed.

(** Scenario B of the spec: the second of two submissions is the one the
    tick reports on. *)
Example scenario_B :
  let w1 := step env_up (PostBooksBulk alice (Some (JArr [dune; emma; dune])))
                 initial_world in
  let w2 := step env_up (PostBooksBulk alice (Some (JArr [emma]))) w1 in
  let w3 := step env_up CronProcessBulkBooks w2 in
  stage env_up alice w2 =
    Some (StageQueued 1 "uuid-5" "2024-01-01T00:00:00.000Z" (Seconds 7200)) /\
  stage env_up alice w3 =
    Some (StageProcessed "uuid-5" 1 1 0 "2024-01-01T00:00:00.000Z" (Seconds 3600)) /\
  length (booksDatabase w3) = 1.
Proof. by vm_compute. Qed.

(** Scenario C of the spec: the write of bob's status entry fails; alice and
    carol are processed, bob stays queued. *)
Example scenario_C :
  let w' := step env_bob_down CronProcessBulkBooks w_three in
  stage env_up alice w' =
    Some (StageProcessed "uuid-3" 3 3 0 "2024-01-01T00:00:00.000Z" (Seconds 3600)) /\
  stage env_up carol w' =
    Some (StageProcessed "uuid-8" 2 2 0 "2024-01-01T00:00:00.000Z" (Seconds 3600)) /\
  stage env_up bob w' =
    Some (StageQueued 1 "uuid-5" "2024-01-01T00:00:00.000Z" (Seconds 7200)) /\
  redis w' !! REDIS_KEYS.bulkStatus "u2" = None.
Proof. by vm_compute. Qed.

(** ** Lemmas on the routes beside the pipeline *)

(** *** Objects *)

Lemma obj_get_set k k' v fs :
  obj_get k (obj_set k' v fs) = if String.eqb k k' then Some v else obj_get k fs.
Proof.
  induction fs as [|[k0 v0] fs IH]; cbn.
  - by destruct (String.eqb k k').
  - destruct (String.eqb k' k0) eqn:H0; cbn.
    + apply String.eqb_eq in H0 as ->. by destruct (String.eqb k k0).
    + rewrite IH. destruct (String.eqb k k0) eqn:H1; [|done].
      apply String.eqb_eq in H1 as ->.
      by rewrite String.eqb_sym, H0.
Qed.

(** *** The cache-aside read *)

Lemma reachable_reaches w : reachable w -> reaches initial_world w.
Proof. induction 1; [apply reaches_refl | by apply reaches_step]. Qed.

Lemma filter_owned_by u db :
  Forall (fun b => owned_by u b = true) (List.filter (owned_by u) db).
Proof. apply Forall_forall. intros b Hb. apply list_elem_of_In, filter_In in Hb. tauto. Qed.

(** *** The single-record routes *)

Lemma prop_is_object fs k s :
  prop_is (JObj fs) k s =
  inr (match obj_get k fs with Some (JStr s') => String.eqb s' s | _ => false end).
Proof. unfold prop_is; cbn. by destruct (obj_get k fs) as [[| | |s'| |]|]. Qed.

Lemma findIndex_book_none bookId u i db :
  Forall (fun b => is_object b = true) db ->
  Forall (fun b => record_matches bookId u b = false) db ->
  findIndex_book bookId u i db = inr None.
Proof.
  intros Hobj Hno. revert i. induction Hobj as [|b db Hb _ IH]; intros i; [done|].
  apply Forall_cons in Hno as [Hb0 Hno]. cbn [findIndex_book].
  destruct b as [| | | | |fs]; try discriminate. rewrite !prop_is_object.
  unfold record_matches, owned_by in Hb0. cbn [own_props] in Hb0.
  destruct (match obj_get "id" fs with Some (JStr s) => String.eqb s bookId | _ => false end);
    [|by apply IH].
  cbn in Hb0. rewrite Hb0. by apply IH.
Qed.

Lemma findIndex_book_first bookId u i db n old :
  Forall (fun b => is_object b = true) db ->
  db !! n = Some old ->
  record_matches bookId u old = true ->
  Forall (fun b => record_matches bookId u b = false) (take n db) ->
  findIndex_book bookId u i db = inr (Some (i + n)).
Proof.
  intros Hobj. revert i n. induction Hobj as [|b db Hb _ IH]; intros i n; [done|].
  destruct b as [| | | | |fs]; try discriminate.
  cbn [findIndex_book]. rewrite !prop_is_object.
  destruct n as [|n]; cbn.
  - intros [= <-] Hm _. unfold record_matches, owned_by in Hm. cbn [own_props] in Hm.
    apply andb_prop in Hm as [-> ->]. by rewrite Nat.add_0_r.
  - intros Hn Hm Hno. apply Forall_cons in Hno as [Hb0 Hno].
    unfold record_matches, owned_by in Hb0. cbn [own_props] in Hb0.
    replace (i + S n) with (S i + n) by lia.
    destruct (match obj_get "id" fs with Some (JStr s) => String.eqb s bookId | _ => false end);
      [|by apply IH].
    cbn in Hb0. rewrite Hb0. by apply IH.
Qed.

Lemma book_fields_inr body fields :
  book_fields body = inr fields ->
  exists title author isbn genre,
    fields = [("title", title); ("author", author); ("isbn", isbn);
              ("publishedYear", or_null (in_publishedYear body)); ("genre", genre)] /\
    call_trim "title" (in_title body) = inr title /\
    call_trim "author" (in_author body) = inr author.
Proof.
  unfold book_fields.
  destruct (call_trim "title" _) as [e|title]; [discriminate|].
  destruct (call_trim "author" _) as [e|author]; [discriminate|].
  destruct (trim_or_null "isbn" _) as [e|isbn]; [discriminate|].
  destruct (trim_or_null "genre" _) as [e|genre]; [discriminate|].
  intros [= <-]. by exists title, author, isbn, genre.
Qed.

Lemma call_trim_string name v s t :
  call_trim name v = inr t -> v = Some (JStr s) -> t = JStr (trim s).
Proof. intros Ht ->. cbn in Ht. congruence. Qed.

(** ** Bulk intake *)

Lemma stamped_lookup env user c t items i item :
  items !! i = Some item ->
  stamped env user c t items !! i =
  Some (stamp user (uuidv4 env (c + i)) (now env (t + 2 * i))
              (now env (S (t + 2 * i))) item).
Proof.
  revert c t i. induction items as [|x items IH]; intros c t i; [done|].
  destruct i as [|i].
  - intros [= ->]. cbn. by rewrite !Nat.add_0_r.
  - intros Hi. etrans; [exact (IH (S c) (S (S t)) i Hi)|].
    do 2 f_equal; f_equal; lia.
Qed.

(** *** The processing job *)

Lemma scan_nil pattern (m : gmap string Entry) :
  (forall k, glob_match pattern k = true -> m !! k = None) -> scan pattern m = [].
Proof.
  intros Hnone. destruct (scan pattern m) as [|k ks] eqn:Hs; [done|].
  assert (Hk : k ∈ scan pattern m) by (rewrite Hs; apply list_elem_of_here).
  apply elem_of_scan in Hk as [[e He] Hg]. by rewrite (Hnone k Hg) in He.
Qed.




(** *** Queue entries are only made by intake, for their owner *)












(** *** What a tick adds to the records of one owner *)








(** *** The report job *)

Lemma generateAndSendReports_no_status env w :
  (forall u, redis w !! REDIS_KEYS.bulkStatus u = None) ->
  run (generateAndSendReports env) w = w.
Proof.
  intros Hnone. rewrite generateAndSendReports_run.
  destruct (redis_down env _); [done|]. destruct (ensureDir_fails env); [done|].
  rewrite scan_nil; [done|].
  intros k Hk. apply allStatusKeys_match in Hk as [u ->]. apply Hnone.
Qed.




(** *** Accounts *)






Lemma login_state aenv body s : fst (auth_login aenv body s) = s.
Proof.
  unfold auth_login. destruct (List.find _ _) as [u|]; [|done].
  destruct (bcrypt_compare aenv _ _) as [[|]|]; try done.
  by destruct (jwt_sign aenv _).
Qed.

Lemma find_app_new {A} (f : A -> bool) l x :
  Forall (fun y => f y = false) l -> f x = true ->
  List.find f (l ++ [x])%list = Some x.
Proof.
  induction 1 as [|y l Hy _ IH]; intros Hx; cbn.
  - by rewrite Hx.
  - rewrite Hy. by apply IH.
Qed.

Lemma substring_all (t : string) : String.substring 0 (String.length t) t = t.
Proof. induction t as [|c t IH]; [done|]. cbn. by rewrite IH. Qed.

Lemma replace_first_Bearer (t : string) : replace_first "Bearer " "" ("Bearer " +:+ t) = t.
Proof.
  cbv beta iota delta [String.append].
  cbn -[String.substring String.length Nat.sub].
  replace (String.prefix "" t) with true by (by destruct t).
  cbn. rewrite Nat.sub_0_r. apply substring_all.
Qed.

(** ** [GET /admin/stats] *)

Lemma reachable_queue_keys w k :
  reachable w ->
  k ∈ scan REDIS_KEYS.allBulkKeys (redis w) <->
  exists e bd, redis w !! k = Some e /\ entry_value e = VQueue bd.
Proof.
  intros Hreach. rewrite elem_of_scan, allBulkKeys_match. split.
  - intros [[e He] [u ->]].
    destruct (reachable_key_shapes w u e Hreach) as (_ & Hq & _).
    destruct (Hq He) as [bd Hbd]. eauto.
  - intros (e & bd & He & Hbd). split; [eauto|].
    destruct (reachable_world_ok w Hreach) as (Hs & _).
    specialize (Hs _ _ He). unfold entry_ok in Hs. rewrite Hbd in Hs.
    destruct Hs as (-> & _). eauto.
Qed.

Lemma reachable_status_keys w k :
  reachable w ->
  k ∈ scan REDIS_KEYS.allStatusKeys (redis w) <->
  exists e sd, redis w !! k = Some e /\ entry_value e = VStatus sd.
Proof.
  intros Hreach. rewrite elem_of_scan, allStatusKeys_match. split.
  - intros [[e He] [u ->]].
    destruct (reachable_key_shapes w u e Hreach) as (_ & _ & Hq).
    destruct (Hq He) as [sd Hsd]. eauto.
  - intros (e & sd & He & Hsd). split; [eauto|].
    destruct (reachable_world_ok w Hreach) as (Hs & _).
    specialize (Hs _ _ He). unfold entry_ok in Hs. rewrite Hsd in Hs.
    destruct Hs as (-> & _). eauto.
Qed.

(** ** The sample runs *)

Lemma reachable_w_posted : reachable w_posted.
Proof. apply reachable_step, reachable_init. Qed.

Lemma w_posted_records : booksDatabase w_posted = [dune_posted].
Proof. by vm_compute. Qed.

Lemma aenv_sample_agrees : auth_libraries_agree aenv_sample aenv_sample.
Proof.
  split.
  - intros p h [= <-]. cbn. by rewrite String.eqb_refl.
  - intros id t [= <-]. split; [|done]. cbn -[String.substring String.length Nat.sub].
    cbv beta iota delta [String.append].
    cbn -[String.substring String.length Nat.sub].
    replace (String.prefix "" id) with true by (by destruct id).
    cbn. by rewrite Nat.sub_0_r, substring_all.
Qed.

(** ** The pass of a tick over one owner's key *)




(** * The claims *)







(** C4. Within one tick of the report job, for every status entry: no
    delivery is confirmed, because [sendReportEmail] throws when it builds
    its transporter, and the entry is not deleted but left exactly as it
    was; when the tick gets as far as its loop and the read and the
    rendering of this entry go through, its report is written during the
    tick, whatever fails for the other owners; and the next tick, under any
    environment, finds the entry and tries again in the same way. *)
Theorem C4_status_entry_kept_until_delivery env env' w key sd ttl :
  reachable w ->
  redis w !! key = Some (mkEntry (VStatus sd) ttl) ->
  let w' := run (generateAndSendReports env) w in
  let w'' := run (generateAndSendReports env') w' in
  outbox w' = outbox w /\
  redis w' !! key = Some (mkEntry (VStatus sd) ttl) /\
  (tick_starts env = true -> rendered env key sd = true ->
   exists new, reports w' = (new ++ reports w)%list /\ report_path env sd ∈ new) /\
  outbox w'' = outbox w /\
  redis w'' !! key = Some (mkEntry (VStatus sd) ttl) /\
  (tick_starts env' = true -> rendered env' key sd = true ->
   exists new, reports w'' = (new ++ reports w')%list /\ report_path env' sd ∈ new).
Proof.
  intros Hreach Hk. cbn zeta.
  pose proof (reachable_world_ok w Hreach) as Hw.
  destruct (report_tick_entry env w key sd ttl Hw Hk) as (Ho & Hkept & Htry).
  destruct (report_tick_entry env' _ key sd ttl
              (generateAndSendReports_world_ok env w Hw) Hkept)
    as (Ho' & Hkept' & Htry').
  rewrite Ho in Ho'. done.
Qed.

Lemma C4_witness :
  let key := REDIS_KEYS.bulkStatus "u1" in
  let w' := run (generateAndSendReports env_up) w_processed in
  reachable w_processed /\
  redis w_processed !! key = Some (mkEntry (VStatus dune_status) 3600) /\
  tick_starts env_up = true /\ rendered env_up key dune_status = true /\
  outbox w' = [] /\
  redis w' !! key = Some (mkEntry (VStatus dune_status) 3600) /\
  report_path env_up dune_status ∈ reports w'.
Proof.
  cbn zeta.
  split; [apply reachable_w_processed|]. split; [by vm_compute|].
  split; [reflexivity|]. split; [reflexivity|].
  destruct (C4_status_entry_kept_until_delivery env_up env_up w_processed
              (REDIS_KEYS.bulkStatus "u1") dune_status 3600 reachable_w_processed)
    as (Hout & Hkept & Htry & _); [by vm_compute|].
  split; [exact Hout|]. split; [exact Hkept|].
  destruct (Htry eq_refl eq_refl) as (new & Hnew & Hin).
  rewrite Hnew. apply elem_of_app. by left.
Defined.

(** C5. A batch holding a [null] book is not answered with the validation
    error naming the offending index: reading [title] of [null] throws, the
    route's catch-all answers 500 [Internal server error]; nothing is
    queued. *)
Theorem C5_null_book_answered_with_500 env user w :
  post_books_bulk env user (Some (JArr [JNull])) w = (w, inr internal_server_error).
Proof. rewrite post_books_bulk_array. reflexivity. Qed.

(** C6. Whenever a change of an owner's records is signalled as complete
    (POST /books answers 201, PUT or DELETE /books/:id answers 200, or a tick
    of the processing job consumes the owner's queue entry), the owner's
    cache key has been deleted: the next read is answered from the record
    store, and whatever any later read serves from the cache was read from
    the record store after the change. *)
Theorem C6_mutations_invalidate_cache env w user w1 :
  reachable w ->
  mutation_completed env user w w1 ->
  redis w1 !! REDIS_KEYS.userBooks (user_id user) = None /\
  fresh_read user w1 /\
  forall w2 env' data count,
    reaches w1 w2 ->
    result (get_books env' user) w2 =
      inr (mkResponse 200 (BooksBody "cache" data count)) ->
    exists wj,
      reaches w1 wj /\ reaches wj w2 /\
      data = List.filter (owned_by (user_id user)) (booksDatabase wj).
Proof.
  intros Hreach Hdone.
  pose proof (reachable_world_ok w Hreach) as Hw.
  assert (Hinv : world_ok w1 /\
                 redis w1 !! REDIS_KEYS.userBooks (user_id user) = None).
  { destruct Hdone as [body Hst|bookId body Hst|bookId Hst|bd ttl Hk Hgone].
    - split; [by apply post_books_world_ok|].
      revert Hst. unfold result, run.
      destruct (post_books_cases env user body w) as [->|(nb & _ & ->)];
        [discriminate|]. cbn zeta.
      destruct (redis_down env _); [discriminate|].
      intros _. cbn. apply lookup_delete_eq.
    - split; [by apply put_books_world_ok|].
      revert Hst. unfold result, run. destruct Hw as (_ & Hdb & _).
      destruct (put_books_cases env user bookId body w Hdb)
        as [->|[->|(i & ub & _ & ->)]]; [discriminate..|]. cbn zeta.
      destruct (redis_down env _); [discriminate|].
      intros _. cbn. apply lookup_delete_eq.
    - split; [by apply delete_books_world_ok|].
      revert Hst. unfold result, run. destruct Hw as (_ & Hdb & _).
      destruct (delete_books_cases env user bookId w Hdb)
        as [->|(i & ub & ->)]; [discriminate|]. cbn zeta.
      destruct (redis_down env _); [discriminate|].
      intros _. cbn. apply lookup_delete_eq.
    - split; [by apply processBulkBooks_world_ok|].
      destruct (processBulkBooks_outcome env w (user_id user) bd ttl Hw Hk)
        as (Hdel & _). by destruct (Hdel Hgone). }
  destruct Hinv as (Hw1 & Hnone).
  split; [done|]. split; [by apply fresh_read_after_invalidate|].
  intros w2 env' data count Hto Hread.
  destruct (get_books_from_cache env' user w2 data count Hread) as (ttl & Hcache).
  destruct (cache_filled_after_invalidate (user_id user) w1 w2 Hw1 Hnone Hto)
    as [Habs|(wj & ttl' & H1 & H2 & Hfill)]; [by rewrite Habs in Hcache|].
  rewrite Hfill in Hcache. injection Hcache as <- _. by exists wj.
Qed.

Lemma C6_witness :
  let cached := Some (mkEntry (VBooks [dune_posted]) 300) in
  let key := REDIS_KEYS.userBooks "u1" in
  let w_created := run (post_books env_up alice dune_input) w_cached in
  let w_updated := run (put_books env_up alice "uuid-0" dune_input) w_cached in
  let w_deleted := run (delete_books env_up alice "uuid-0") w_cached in
  let w_applied := run (processBulkBooks env_up) w_cached_queued in
  reachable w_cached /\ reachable w_cached_queued /\
  redis w_cached !! key = cached /\ redis w_cached_queued !! key = cached /\
  (mutation_completed env_up alice w_cached w_created /\
   redis w_created !! key = None) /\
  (mutation_completed env_up alice w_cached w_updated /\
   redis w_updated !! key = None) /\
  (mutation_completed env_up alice w_cached w_deleted /\
   redis w_deleted !! key = None) /\
  (mutation_completed env_up alice w_cached_queued w_applied /\
   redis w_applied !! key = None).
Proof.
  cbn zeta.
  assert (Hcached : reachable w_cached).
  { apply reachable_step, reachable_step, reachable_init. }
  assert (Hqueued : reachable w_cached_queued) by by apply reachable_step.
  assert (Hcreated : mutation_completed env_up alice w_cached
                       (run (post_books env_up alice dune_input) w_cached)).
  { apply created. by vm_compute. }
  assert (Hupdated : mutation_completed env_up alice w_cached
                       (run (put_books env_up alice "uuid-0" dune_input) w_cached)).
  { apply updated. by vm_compute. }
  assert (Hdeleted : mutation_completed env_up alice w_cached
                       (run (delete_books env_up alice "uuid-0") w_cached)).
  { apply deleted. by vm_compute. }
  assert (Happlied : mutation_completed env_up alice w_cached_queued
                       (run (processBulkBooks env_up) w_cached_queued)).
  { apply (bulk_applied env_up alice w_cached_queued
             (queue_entry env_up alice [dune] w_cached) 7200); by vm_compute. }
  split; [exact Hcached|]. split; [exact Hqueued|].
  split; [by vm_compute|]. split; [by vm_compute|].
  split; [|split; [|split]]; (split; [done|]).
  - exact (proj1 (C6_mutations_invalidate_cache env_up w_cached alice _
                    Hcached Hcreated)).
  - exact (proj1 (C6_mutations_invalidate_cache env_up w_cached alice _
                    Hcached Hupdated)).
  - exact (proj1 (C6_mutations_invalidate_cache env_up w_cached alice _
                    Hcached Hdeleted)).
  - exact (proj1 (C6_mutations_invalidate_cache env_up w_cached_queued alice _
                    Hqueued Happlied)).
Defined.




(** C8. The status route changes nothing, and when Redis answers its
    commands the response is decided by the two keys of the owner: [queued]
    whenever the queue key holds an entry, [processed_awaiting_report] when
    only the status key holds one, and the no-books answer, with status 200,
    when neither does. *)
Theorem C8_status_query_shapes env w user :
  reachable w ->
  let bulkKey := REDIS_KEYS.bulkBooks (user_id user) in
  let statusKey := REDIS_KEYS.bulkStatus (user_id user) in
  redis_down env (OpGet bulkKey) = false ->
  redis_down env (OpGet statusKey) = false ->
  redis_down env (OpTtl bulkKey) = false ->
  redis_down env (OpTtl statusKey) = false ->
  run (get_books_queue env user) w = w /\
  match redis w !! bulkKey, redis w !! statusKey with
  | Some q, _ =>
      exists bd, entry_value q = VQueue bd /\
        result (get_books_queue env user) w =
        inr (mkResponse 200
               (StageQueued (length (bd_books bd)) (bd_requestId bd)
                            (bd_queuedAt bd) (expires_in (entry_ttl q))))
  | None, Some s =>
      exists sd, entry_value s = VStatus sd /\
        result (get_books_queue env user) w =
        inr (mkResponse 200
               (StageProcessed (sd_requestId sd) (totalBooks sd)
                               (successCount sd) (failCount sd)
                               (sd_processedAt sd) (expires_in (entry_ttl s))))
  | None, None =>
      result (get_books_queue env user) w = inr (mkResponse 200 StageNone)
  end.
Proof.
  intros Hreach. cbn zeta. intros Hg1 Hg2 Ht1 Ht2.
  split; [apply get_books_queue_pure|].
  destruct (reachable_world_ok w Hreach) as (Hs & _).
  unfold result, get_books_queue, try_catch, bind, redis_get, redis_ttl, ret, throw.
  rewrite Hg1, Hg2.
  destruct (redis w !! REDIS_KEYS.bulkBooks (user_id user)) as [[v ttl]|] eqn:Hq.
  - specialize (Hs _ _ Hq). unfold entry_ok in Hs. cbn in Hs |- *.
    destruct v as [bs|bd|sd].
    + destruct Hs as [u Hu]. discriminate.
    + exists bd. split; [done|]. by rewrite Ht1, Hq.
    + destruct Hs as (Hu & _). discriminate.
  - destruct (redis w !! REDIS_KEYS.bulkStatus (user_id user)) as [[v ttl]|] eqn:Hst;
      [|done].
    specialize (Hs _ _ Hst). unfold entry_ok in Hs. cbn in Hs |- *.
    destruct v as [bs|bd|sd].
    + destruct Hs as [u Hu]. discriminate.
    + destruct Hs as (Hu & _). discriminate.
    + exists sd. split; [done|]. by rewrite Ht2, Hst.
Qed.

Lemma C8_witness :
  reachable w_queued /\
  result (get_books_queue env_up alice) w_queued =
    inr (mkResponse 200
           (StageQueued 1 "uuid-1" "2024-01-01T00:00:00.000Z" (Seconds 7200))).
Proof.
  split; [apply reachable_w_queued|].
  destruct (C8_status_query_shapes env_up w_queued alice reachable_w_queued
              eq_refl eq_refl eq_refl eq_refl) as (_ & Hshape).
  vm_compute in Hshape. destruct Hshape as (bd & Hbd & Hres).
  injection Hbd as <-. vm_compute. exact Hres.
Defined.



(** C10. In every world the server can reach, every status entry has
    [totalBooks >= 1], so the success rate [successCount / totalBooks] the
    report is rendered with is a number, and so was the success rate printed
    in every mail that went out. *)
Theorem C10_status_total_is_positive w :
  reachable w ->
  (forall key e sd,
     redis w !! key = Some e -> entry_value e = VStatus sd ->
     1 <= totalBooks sd /\
     exists rate, success_rate (successCount sd) (totalBooks sd) = Some rate) /\
  (forall m, m ∈ outbox w ->
     1 <= totalBooks (mail_status m) /\
     exists rate, mail_successRate m = Some rate).
Proof.
  intros Hreach. destruct (reachable_world_ok w Hreach) as (Hs & _ & Hout).
  split.
  - intros key e sd Hk He. specialize (Hs _ _ Hk). unfold entry_ok in Hs.
    rewrite He in Hs. destruct Hs as (_ & Htot & _).
    split; [done | by apply success_rate_defined].
  - intros m Hm. rewrite Forall_forall in Hout.
    destruct (Hout m Hm) as (Htot & ->).
    split; [done | by apply success_rate_defined].
Qed.

Lemma C10_witness :
  reachable w_processed /\
  1 <= totalBooks dune_status.
Proof.
  split; [apply reachable_w_processed|].
  destruct (C10_status_total_is_positive w_processed reachable_w_processed)
    as (Hstore & _).
  destruct (Hstore (REDIS_KEYS.bulkStatus "u1") (mkEntry (VStatus dune_status) 3600)
              dune_status) as (Htot & _); [by vm_compute | reflexivity|].
  exact Htot.
Defined.

(** * Further properties of the code *)

(** X1. The three key families keep users and purposes apart: each key
    function is injective in the user id, no key of one family is a key of
    another, and each scan pattern selects exactly the keys of its family. *)
Theorem X1_key_families_partition_the_key_space u u' k :
  (REDIS_KEYS.userBooks u = REDIS_KEYS.userBooks u' <-> u = u') /\
  (REDIS_KEYS.bulkBooks u = REDIS_KEYS.bulkBooks u' <-> u = u') /\
  (REDIS_KEYS.bulkStatus u = REDIS_KEYS.bulkStatus u' <-> u = u') /\
  REDIS_KEYS.userBooks u <> REDIS_KEYS.bulkBooks u' /\
  REDIS_KEYS.userBooks u <> REDIS_KEYS.bulkStatus u' /\
  REDIS_KEYS.bulkBooks u <> REDIS_KEYS.bulkStatus u' /\
  (glob_match REDIS_KEYS.allBulkKeys k = true <->
   exists v, k = REDIS_KEYS.bulkBooks v) /\
  (glob_match REDIS_KEYS.allStatusKeys k = true <->
   exists v, k = REDIS_KEYS.bulkStatus v) /\
  glob_match REDIS_KEYS.allBulkKeys (REDIS_KEYS.userBooks u) = false /\
  glob_match REDIS_KEYS.allBulkKeys (REDIS_KEYS.bulkStatus u) = false /\
  glob_match REDIS_KEYS.allStatusKeys (REDIS_KEYS.userBooks u) = false /\
  glob_match REDIS_KEYS.allStatusKeys (REDIS_KEYS.bulkBooks u) = false.
Proof.
  split; [split; [apply append_inj_l | by intros ->]|].
  split; [split; [apply append_inj_l | by intros ->]|].
  split; [split; [apply append_inj_l | by intros ->]|].
  split; [discriminate|]. split; [discriminate|]. split; [discriminate|].
  split; [apply allBulkKeys_match|]. split; [apply allStatusKeys_match|].
  repeat split; reflexivity.
Qed.

(** X2. A read that misses the cache answers the owner's records from the
    record store and stores them under the owner's cache key for 300
    seconds; the next read answers the same records from the cache and
    changes nothing. *)
Theorem X2_cache_miss_then_hit env1 env2 user w :
  reachable w ->
  redis w !! REDIS_KEYS.userBooks (user_id user) = None ->
  redis_down env1 (OpGet (REDIS_KEYS.userBooks (user_id user))) = false ->
  redis_down env1 (OpSetex (REDIS_KEYS.userBooks (user_id user))) = false ->
  redis_down env2 (OpGet (REDIS_KEYS.userBooks (user_id user))) = false ->
  let data := List.filter (owned_by (user_id user)) (booksDatabase w) in
  let w1 := run (get_books env1 user) w in
  result (get_books env1 user) w =
    inr (mkResponse 200 (BooksBody "database" data (length data))) /\
  redis w1 !! REDIS_KEYS.userBooks (user_id user) = Some (mkEntry (VBooks data) 300) /\
  result (get_books env2 user) w1 =
    inr (mkResponse 200 (BooksBody "cache" data (length data))) /\
  run (get_books env2 user) w1 = w1.
Proof.
  intros Hreach Hnone Hg Hs Hg2. cbn zeta.
  destruct (reachable_world_ok w Hreach) as (_ & Hdb & _).
  unfold result, run. rewrite (get_books_miss env1 user w Hdb Hnone). cbn zeta.
  rewrite Hg, Hs. cbn [fst snd].
  split; [done|]. split; [cbn; by rewrite lookup_insert_eq|].
  unfold get_books, try_catch, bind, redis_get. rewrite Hg2. cbn.
  by rewrite lookup_insert_eq.
Qed.

Lemma X2_witness :
  reachable w_posted /\
  redis w_posted !! REDIS_KEYS.userBooks "u1" = None /\
  result (get_books env_up alice) w_posted =
    inr (mkResponse 200 (BooksBody "database" [dune_posted] 1)) /\
  result (get_books env_up alice) (run (get_books env_up alice) w_posted) =
    inr (mkResponse 200 (BooksBody "cache" [dune_posted] 1)).
Proof.
  split; [apply reachable_w_posted|]. split; [by vm_compute|].
  destruct (X2_cache_miss_then_hit env_up env_up alice w_posted reachable_w_posted)
    as (Hmiss & _ & Hhit & _); [by vm_compute ..|].
  rewrite w_posted_records in Hmiss, Hhit. split; [exact Hmiss | exact Hhit].
Defined.

(** X3. Whatever [GET /books] answers with status 200, from the cache or from
    the record store, holds only records whose [userId] is the caller's, and
    the read leaves the record store as it was. *)
Theorem X3_read_returns_only_own_records env user w source data count :
  reachable w ->
  result (get_books env user) w = inr (mkResponse 200 (BooksBody source data count)) ->
  Forall (fun b => owned_by (user_id user) b = true) data /\
  count = length data /\
  (source = "cache" \/ source = "database") /\
  booksDatabase (run (get_books env user) w) = booksDatabase w.
Proof.
  intros Hreach Hres.
  pose proof (reachable_world_ok w Hreach) as Hw. pose proof Hw as (_ & Hdb & _).
  destruct (redis w !! REDIS_KEYS.userBooks (user_id user)) as [e|] eqn:Hk.
  - assert (Hrun : run (get_books env user) w = w) by apply (get_books_hit env user w e Hk).
    rewrite Hrun. revert Hres.
    unfold result, get_books, try_catch, bind, redis_get.
    destruct (redis_down env (OpGet _)); [discriminate|]. rewrite Hk. cbn.
    destruct (cache_filled_after_invalidate (user_id user) initial_world w
                initial_world_ok (lookup_empty _) (reachable_reaches w Hreach))
      as [Habs|(wj & ttl & _ & _ & Hfill)]; [by rewrite Habs in Hk|].
    rewrite Hfill in Hk. injection Hk as <-. cbn.
    intros [= <- <- <-]. split; [apply filter_owned_by|]. by auto.
  - revert Hres. unfold result, run. rewrite (get_books_miss env user w Hdb Hk).
    cbn zeta. destruct (redis_down env (OpGet _)); [discriminate|].
    destruct (redis_down env (OpSetex _)); [discriminate|]. cbn.
    intros [= <- <- <-]. split; [apply filter_owned_by|]. by auto.
Qed.

Lemma X3_witness :
  reachable w_posted /\
  result (get_books env_up alice) w_posted =
    inr (mkResponse 200 (BooksBody "database" [dune_posted] 1)) /\
  Forall (fun b => owned_by "u1" b = true) [dune_posted].
Proof.
  split; [apply reachable_w_posted|]. split; [by vm_compute|].
  destruct (X3_read_returns_only_own_records env_up alice w_posted "database"
              [dune_posted] 1 reachable_w_posted) as (Hown & _); [by vm_compute|].
  exact Hown.
Defined.

(** X4. [POST /books] draws one identifier and then evaluates [title.trim()],
    [author.trim()], [isbn?.trim()] and [genre?.trim()]. When [title] and
    [author] are strings and [isbn] and [genre] are strings, [null] or
    absent, it appends exactly one record, owned by the caller, with that
    identifier, the trimmed title and author, [publishedYear || null] as it
    came, and the next two readings of the clock; the answer is 201 once the
    caller's cache key is deleted, and 500 when that delete is rejected, in
    which case the record stays stored and Redis is as it was. For every
    other body (an array as title, say) one of the calls throws: the answer
    is 500 and neither the record store nor Redis changes. *)
Theorem X4_create_appends_one_record_or_none env user body w :
  let w' := run (post_books env user body) w in
  uuid_cursor w' = S (uuid_cursor w) /\
  if body_trims body then
    exists newBook,
      booksDatabase w' = (booksDatabase w ++ [newBook])%list /\
      owned_by (user_id user) newBook = true /\
      obj_get "id" (own_props newBook) = Some (JStr (uuidv4 env (uuid_cursor w))) /\
      (forall s, in_title body = Some (JStr s) ->
         obj_get "title" (own_props newBook) = Some (JStr (trim s))) /\
      (forall s, in_author body = Some (JStr s) ->
         obj_get "author" (own_props newBook) = Some (JStr (trim s))) /\
      obj_get "publishedYear" (own_props newBook) =
        Some (or_null (in_publishedYear body)) /\
      obj_get "createdAt" (own_props newBook) =
        Some (JStr (now env (clock_cursor w))) /\
      obj_get "updatedAt" (own_props newBook) =
        Some (JStr (now env (S (clock_cursor w)))) /\
      if redis_down env (OpDel (REDIS_KEYS.userBooks (user_id user)))
      then result (post_books env user body) w = inr internal_server_error /\
           redis w' = redis w
      else result (post_books env user body) w =
             inr (mkResponse 201 (BookBody "Book added successfully" newBook)) /\
           redis w' = delete (REDIS_KEYS.userBooks (user_id user)) (redis w)
  else
    result (post_books env user body) w = inr internal_server_error /\
    booksDatabase w' = booksDatabase w /\
    redis w' = redis w.
Proof.
  cbn zeta. unfold run, result. rewrite post_books_run.
  pose proof (book_fields_trims body) as Hf.
  destruct (body_trims body).
  - destruct Hf as [fields Hf]. rewrite Hf.
    destruct (book_fields_inr body fields Hf)
      as (title & author & isbn & genre & -> & Ht & Ha).
    cbn zeta. split; [by destruct (redis_down env _)|].
    exists (created_book env user
              [("title", title); ("author", author); ("isbn", isbn);
               ("publishedYear", or_null (in_publishedYear body)); ("genre", genre)] w).
    split; [by destruct (redis_down env _)|].
    split; [unfold owned_by; cbn; apply String.eqb_refl|].
    split; [done|].
    split; [intros s Hs; cbn; by rewrite (call_trim_string _ _ s _ Ht Hs)|].
    split; [intros s Hs; cbn; by rewrite (call_trim_string _ _ s _ Ha Hs)|].
    split; [done|]. split; [done|]. split; [done|].
    by destruct (redis_down env _).
  - destruct Hf as [e ->]. done.
Qed.

Lemma X4_witness :
  body_trims dune_input = true /\ body_trims array_title_input = false /\
  booksDatabase (run (post_books env_up alice dune_input) initial_world) =
    [dune_posted] /\
  post_books env_up alice array_title_input w_posted =
    (bump_uuid w_posted, inr internal_server_error).
Proof.
  split; [reflexivity|]. split; [reflexivity|]. split.
  - destruct (X4_create_appends_one_record_or_none env_up alice dune_input initial_world)
      as (_ & Happ).
    change (body_trims dune_input) with true in Happ.
    destruct Happ as (newBook & Hdb & _). rewrite Hdb. by vm_compute.
  - destruct (X4_create_appends_one_record_or_none env_up alice array_title_input
                w_posted) as (Hid & Hnone).
    change (body_trims array_title_input) with false in Hnone.
    by vm_compute.
Defined.

(** X5. [PUT /books/:id] acts on the first record that has this id and
    belongs to the caller: when there is none (in particular when the id
    belongs to another user's record) it answers 404 and changes nothing.
    Otherwise, when [title] and [author] are strings and [isbn] and [genre]
    are strings, [null] or absent, it replaces that one record and no
    other, and the new record keeps the id, the owner and the creation time
    of the old one and takes the trimmed title and author and the next
    reading of the clock as update time; the answer is 200 once the caller's
    cache key is deleted, and 500 when that delete is rejected, the
    replacement being kept. For every other body one of the [trim] calls
    throws: the answer is 500 and nothing changes. *)
Theorem X5_update_replaces_one_own_record env user bookId body w :
  reachable w ->
  let db := booksDatabase w in
  let u := user_id user in
  let w' := run (put_books env user bookId body) w in
  (Forall (fun b => record_matches bookId u b = false) db ->
   put_books env user bookId body w = (w, inr not_found)) /\
  (forall n old,
     db !! n = Some old ->
     record_matches bookId u old = true ->
     Forall (fun b => record_matches bookId u b = false) (take n db) ->
     if body_trims body then
       exists new,
         booksDatabase w' = <[n := new]> db /\
         obj_get "id" (own_props new) = obj_get "id" (own_props old) /\
         obj_get "userId" (own_props new) = obj_get "userId" (own_props old) /\
         obj_get "createdAt" (own_props new) = obj_get "createdAt" (own_props old) /\
         (forall s, in_title body = Some (JStr s) ->
            obj_get "title" (own_props new) = Some (JStr (trim s))) /\
         (forall s, in_author body = Some (JStr s) ->
            obj_get "author" (own_props new) = Some (JStr (trim s))) /\
         obj_get "updatedAt" (own_props new) =
           Some (JStr (now env (clock_cursor w))) /\
         if redis_down env (OpDel (REDIS_KEYS.userBooks u))
         then result (put_books env user bookId body) w = inr internal_server_error /\
              redis w' = redis w
         else result (put_books env user bookId body) w =
                inr (mkResponse 200 (BookBody "Book updated successfully" new)) /\
              redis w' = delete (REDIS_KEYS.userBooks u) (redis w)
     else put_books env user bookId body w = (w, inr internal_server_error)).
Proof.
  intros Hreach. cbn zeta.
  destruct (reachable_world_ok w Hreach) as (_ & Hdb & _).
  split.
  - intros Hno. unfold put_books. unfold_M. cbn.
    by rewrite (findIndex_book_none bookId (user_id user) 0 _ Hdb Hno).
  - intros n old Hn Hm Hno.
    pose proof (findIndex_book_first bookId (user_id user) 0 _ n old Hdb Hn Hm Hno)
      as Hfind. cbn in Hfind.
    unfold run, result. rewrite (put_books_run env user bookId body w n Hfind).
    pose proof (book_fields_trims body) as Hf.
    destruct (body_trims body); [|by destruct Hf as [e ->]].
    destruct Hf as [fields Hf]. rewrite Hf.
    destruct (book_fields_inr body fields Hf)
      as (title & author & isbn & genre & -> & Ht & Ha).
    rewrite Hn. cbn zeta. cbn [default].
    eexists. split; [by destruct (redis_down env _)|].
    unfold updated_book. cbn [own_props obj_set_all].
    rewrite ?obj_get_set. cbn.
    split; [done|]. split; [done|]. split; [done|].
    split; [intros s Hs; by rewrite (call_trim_string _ _ s _ Ht Hs)|].
    split; [intros s Hs; by rewrite (call_trim_string _ _ s _ Ha Hs)|].
    split; [done|].
    by destruct (redis_down env _).
Qed.

Lemma X5_witness :
  reachable w_posted /\
  booksDatabase w_posted !! 0 = Some dune_posted /\
  record_matches "uuid-0" "u1" dune_posted = true /\
  put_books env_up alice "uuid-9" dune_input w_posted = (w_posted, inr not_found) /\
  put_books env_up alice "uuid-0" array_title_input w_posted =
    (w_posted, inr internal_server_error) /\
  exists new,
    booksDatabase (run (put_books env_up alice "uuid-0" dune_input) w_posted) = [new] /\
    obj_get "createdAt" (own_props new) = obj_get "createdAt" (own_props dune_posted).
Proof.
  split; [apply reachable_w_posted|]. split; [by vm_compute|]. split; [by vm_compute|].
  split; [|split].
  - destruct (X5_update_replaces_one_own_record env_up alice "uuid-9" dune_input w_posted
                reachable_w_posted) as (Hmiss & _).
    apply Hmiss. rewrite w_posted_records. by repeat constructor.
  - destruct (X5_update_replaces_one_own_record env_up alice "uuid-0" array_title_input
                w_posted reachable_w_posted) as (_ & Hhit).
    apply (Hhit 0 dune_posted); [by vm_compute | by vm_compute | by constructor].
  - destruct (X5_update_replaces_one_own_record env_up alice "uuid-0" dune_input w_posted
                reachable_w_posted) as (_ & Hhit).
    specialize (Hhit 0 dune_posted).
    change (body_trims dune_input) with true in Hhit.
    destruct Hhit as (new & Hdb & _ & _ & Hcreated & _);
      [by vm_compute | by vm_compute | by constructor|].
    exists new. rewrite w_posted_records in Hdb. split; [exact Hdb | exact Hcreated].
Defined.



(** X7. An accepted submission stores, for 7200 seconds under the caller's
    queue key, an entry with the caller's id, name and address and one book
    per submitted item, in order. In the book of item [i], whatever the item
    carried under these four names, [id] is the [i]-th identifier generated
    by the request, [userId] is the caller's id, and [createdAt] and
    [updatedAt] are two readings of the clock of their own, the [2 i]-th and
    the next one of the request; every other property of the item that is a
    string, a boolean or [null] is stored as it was submitted, untrimmed.
    The entry's [queuedAt] is read after all of these and its request id is
    generated last; the answer names both and the number of items. *)
Theorem X7_queued_books_are_stamped_for_the_caller env user books w :
  status_code (result (post_books_bulk env user books) w) = 202%Z ->
  exists items bd,
    books = Some (JArr items) /\
    redis (run (post_books_bulk env user books) w) !! REDIS_KEYS.bulkBooks (user_id user)
      = Some (mkEntry (VQueue bd) 7200) /\
    bd_userId bd = user_id user /\
    bd_username bd = user_username user /\
    bd_userEmail bd = user_email user /\
    bd_queuedAt bd = now env (clock_cursor w + 2 * length items) /\
    bd_requestId bd = uuidv4 env (uuid_cursor w + length items) /\
    result (post_books_bulk env user books) w =
      inr (mkResponse 202 (QueuedBody (bd_requestId bd) (length items) (bd_queuedAt bd))) /\
    length (bd_books bd) = length items /\
    forall i item,
      items !! i = Some item ->
      exists b,
        bd_books bd !! i = Some b /\
        obj_get "id" (own_props b) = Some (JStr (uuidv4 env (uuid_cursor w + i))) /\
        obj_get "userId" (own_props b) = Some (JStr (user_id user)) /\
        obj_get "createdAt" (own_props b) =
          Some (JStr (now env (clock_cursor w + 2 * i))) /\
        obj_get "updatedAt" (own_props b) =
          Some (JStr (now env (S (clock_cursor w + 2 * i)))) /\
        forall k v,
          k <> "id" -> k <> "userId" -> k <> "createdAt" -> k <> "updatedAt" ->
          obj_get k (own_props item) = Some v -> json_scalar v = true ->
          obj_get k (own_props b) = Some v.
Proof.
  intros Hacc.
  destruct (post_books_bulk_accepted_inv env user books w Hacc)
    as (items & -> & Hlen & Hcarry & Hup & Hrun).
  exists items, (queue_entry env user items w). unfold run, result. rewrite Hrun.
  split; [done|]. split; [cbn; by rewrite lookup_insert_eq|].
  do 6 (split; [done|]). split; [apply stamped_length|].
  intros i item Hi. eexists. split; [by apply stamped_lookup|].
  unfold stamp. cbn [own_props]. rewrite !obj_get_set. cbn -[Nat.mul].
  do 4 (split; [reflexivity|]).
  intros k v H1 H2 H3 H4 Hv _. rewrite !obj_get_set.
  apply String.eqb_neq in H1, H2, H3, H4. by rewrite H1, H2, H3, H4.
Qed.

Lemma X7_witness :
  status_code (result (post_books_bulk env_up alice (Some (JArr [dune]))) initial_world)
    = 202%Z /\
  exists bd b,
    redis w_queued !! REDIS_KEYS.bulkBooks "u1" = Some (mkEntry (VQueue bd) 7200) /\
    bd_userId bd = "u1" /\ bd_requestId bd = "uuid-1" /\
    bd_books bd !! 0 = Some b /\
    obj_get "id" (own_props b) = Some (JStr "uuid-0") /\
    obj_get "title" (own_props b) = Some (JStr "Dune").
Proof.
  split; [by vm_compute|].
  destruct (X7_queued_books_are_stamped_for_the_caller env_up alice (Some (JArr [dune]))
              initial_world)
    as (items & bd & Hitems & Hq & Hu & _ & _ & _ & Hr & _ & _ & Hbooks);
    [by vm_compute|].
  injection Hitems as <-.
  destruct (Hbooks 0 dune eq_refl) as (b & Hb & Hid & _ & _ & _ & Hrest).
  exists bd, b. split; [exact Hq|]. split; [exact Hu|]. split; [exact Hr|].
  split; [exact Hb|]. split; [exact Hid|].
  by apply Hrest.
Defined.

(** X8. A submission, accepted or not, never changes the record store, the
    report files or the outbox and draws no random number; in Redis it can
    only change the caller's queue key, and it changes nothing there unless
    it answers 202. *)
Theorem X8_intake_touches_only_the_queue_key env user books w :
  let w' := run (post_books_bulk env user books) w in
  booksDatabase w' = booksDatabase w /\
  reports w' = reports w /\
  outbox w' = outbox w /\
  random_cursor w' = random_cursor w /\
  (forall k, k <> REDIS_KEYS.bulkBooks (user_id user) -> redis w' !! k = redis w !! k) /\
  (status_code (result (post_books_bulk env user books) w) <> 202%Z ->
   redis w' = redis w).
Proof.
  cbn zeta. unfold run, result.
  destruct books as [[| | | |items|]|];
    try (rewrite post_books_bulk_not_array by done; by repeat split).
  rewrite post_books_bulk_array.
  destruct (Nat.eqb (length items) 0); [by repeat split|].
  destruct (Nat.ltb maxBatchSize (length items)); [by repeat split|].
  destruct (first_invalid_book 0 items) as [e|[i|]]; [by repeat split..|].
  cbn zeta. destruct (redis_down env _); cbn; [by repeat split|].
  repeat split; try done. intros k Hk. by apply lookup_insert_ne.
Qed.

(** X9. A tick of the processing job does not touch the cache key, the queue
    key or the status key of an owner who has no queue entry, and when no
    owner has one the tick changes nothing at all. *)
Theorem X9_tick_skips_owners_without_batch env w :
  reachable w ->
  (forall u,
     redis w !! REDIS_KEYS.bulkBooks u = None ->
     same_for u (redis w) (redis (run (processBulkBooks env) w))) /\
  ((forall u, redis w !! REDIS_KEYS.bulkBooks u = None) ->
   run (processBulkBooks env) w = w).
Proof.
  intros Hreach. pose proof (reachable_world_ok w Hreach) as Hw. split.
  - intros u Hu. by apply processBulkBooks_bystander.
  - intros Hnone. rewrite processBulkBooks_run.
    destruct (redis_down env _); [done|].
    rewrite scan_nil; [done|].
    intros k Hk. apply allBulkKeys_match in Hk as [u ->]. apply Hnone.
Qed.

Lemma X9_witness :
  reachable w_processed /\
  redis w_processed !! REDIS_KEYS.bulkBooks "u1" = None /\
  same_for "u1" (redis w_processed) (redis (run (processBulkBooks env_up) w_processed)).
Proof.
  split; [apply reachable_w_processed|]. split; [by vm_compute|].
  destruct (X9_tick_skips_owners_without_batch env_up w_processed reachable_w_processed)
    as (Hskip & _).
  apply Hskip. by vm_compute.
Defined.





(** X12. A tick of the report job that finds no status entry changes
    nothing. Any other tick leaves Redis, the record store and the outbox as
    they were: [sendReportEmail] throws before a mail is handed over, so no
    status entry is deleted. All it does is write files: when the scan and
    the directory check go through, one PDF for every status entry whose
    read and rendering go through, and none of them is removed afterwards,
    whatever [PDF_CLEANUP_AFTER_SEND] says. *)
Theorem X12_report_tick_only_writes_reports env w :
  reachable w ->
  let w' := run (generateAndSendReports env) w in
  ((forall u, redis w !! REDIS_KEYS.bulkStatus u = None) -> w' = w) /\
  redis w' = redis w /\
  booksDatabase w' = booksDatabase w /\
  outbox w' = outbox w /\
  exists new,
    reports w' = (new ++ reports w)%list /\
    forall p,
      p ∈ new <->
      tick_starts env = true /\
      exists key sd ttl,
        redis w !! key = Some (mkEntry (VStatus sd) ttl) /\
        rendered env key sd = true /\
        p = report_path env sd.
Proof.
  intros Hreach. cbn zeta.
  destruct (generateAndSendReports_keeps env w) as (Hr & Hd & Ho & _).
  split; [apply generateAndSendReports_no_status|].
  do 3 (split; [done|]).
  eexists. split; [apply generateAndSendReports_reports|].
  intros p. destruct (tick_starts env); [|split; [by intros ?%elem_of_nil | by intros [? _]]].
  rewrite list_elem_of_In, <- in_rev, <- list_elem_of_In, list_elem_of_omap. split.
  - intros (key & Hin & Hp). split; [done|].
    unfold rendered_path in Hp.
    destruct (redis w !! key) as [[v ttl]|] eqn:Hk; [|done].
    destruct v as [bs|bd|sd]; try done. cbn in Hp.
    exists key, sd, ttl. split; [done|]. unfold rendered.
    destruct (redis_down env _ || pdf_fails env _); [done|]. by injection Hp as <-.
  - intros (_ & key & sd & ttl & Hk & Hrend & ->). exists key. split.
    + apply elem_of_scan. split; [by eexists|]. apply allStatusKeys_match.
      destruct (reachable_world_ok w Hreach) as (Hs & _).
      destruct (Hs _ _ Hk) as (-> & _). by eexists.
    + by rewrite (rendered_path_status env _ key sd ttl Hk), Hrend.
Qed.

Lemma X12_witness :
  let w' := run (generateAndSendReports env_up) w_processed in
  reachable w_processed /\
  redis w' = redis w_processed /\ outbox w' = [] /\
  reports w' = ["reports/bulk-report-uuid-1.pdf"].
Proof.
  cbn zeta. split; [apply reachable_w_processed|].
  destruct (X12_report_tick_only_writes_reports env_up w_processed
              reachable_w_processed) as (_ & Hr & _ & Ho & _).
  split; [exact Hr|]. split; [exact Ho|]. by vm_compute.
Defined.

(** X13. A tick of the report job never changes the record store and never
    writes to Redis: a key reads as before or, if it held a status entry, is
    gone. The mails it sends are appended to the outbox, each is the report
    of a status entry the tick found, and there are at most as many as there
    were status keys. *)
Theorem X13_report_tick_only_sends_and_deletes env w :
  reachable w ->
  let w' := run (generateAndSendReports env) w in
  booksDatabase w' = booksDatabase w /\
  (forall k,
     redis w' !! k = redis w !! k \/
     (redis w' !! k = None /\
      exists sd ttl, redis w !! k = Some (mkEntry (VStatus sd) ttl))) /\
  exists ms,
    outbox w' = (outbox w ++ ms)%list /\
    length ms <= length (scan REDIS_KEYS.allStatusKeys (redis w)) /\
    Forall (fun m => exists k sd ttl,
              redis w !! k = Some (mkEntry (VStatus sd) ttl) /\
              m = report_mail env sd) ms.
Proof.
  intros _. cbn zeta.
  destruct (generateAndSendReports_keeps env w) as (Hr & Hd & Ho & _).
  split; [done|]. split; [intros k; left; by rewrite Hr|].
  exists []. rewrite app_nil_r. split; [done|]. split; [cbn; lia | constructor].
Qed.

Lemma X13_witness :
  reachable w_processed /\
  booksDatabase (run (generateAndSendReports env_up) w_processed) =
  booksDatabase w_processed.
Proof.
  split; [apply reachable_w_processed|].
  destruct (X13_report_tick_only_sends_and_deletes env_up w_processed
              reachable_w_processed) as (Hdb & _).
  exact Hdb.
Defined.








(** X18. [POST /auth/login] never changes the server. It answers 200 only
    for an account with this email whose stored hash compares true with the
    password, with that account's id, name and address; and it answers with
    one and the same 401 whether no account has this email or the password
    does not match. *)
Theorem X18_login_checks_the_stored_hash aenv body s :
  let r := snd (auth_login aenv body s) in
  fst (auth_login aenv body s) = s /\
  (auth_status r = 200%Z ->
   exists user token,
     user ∈ usersDatabase s /\
     acc_email user = cr_email body /\
     bcrypt_compare aenv (cr_password body) (acc_password user) = Some true /\
     jwt_sign aenv (acc_id user) = Some token /\
     r = mkAuthResponse 200
           (AuthSuccess "Login successful" (acc_id user) (acc_username user)
                        (acc_email user) None token)) /\
  (Forall (fun u => acc_email u <> cr_email body) (usersDatabase s) ->
   r = invalid_login) /\
  (forall user,
     List.find (fun u => String.eqb (acc_email u) (cr_email body)) (usersDatabase s)
       = Some user ->
     bcrypt_compare aenv (cr_password body) (acc_password user) = Some false ->
     r = invalid_login).
Proof.
  cbn zeta. split; [apply login_state|]. unfold auth_login.
  destruct (List.find _ _) as [user|] eqn:Hfind.
  - apply List.find_some in Hfind as Hsome. destruct Hsome as [Hin He].
    apply String.eqb_eq in He. apply list_elem_of_In in Hin.
    split; [|split].
    + destruct (bcrypt_compare aenv _ _) as [[|]|] eqn:Hc; try discriminate.
      destruct (jwt_sign aenv _) as [token|] eqn:Ht; [|discriminate].
      intros _. by exists user, token.
    + intros Hno. rewrite Forall_forall in Hno. by destruct (Hno user Hin).
    + intros user' [= <-] Hc. by rewrite Hc.
  - split; [discriminate|]. split; [done|]. discriminate.
Qed.



(** X20. [authenticateUser] lets a request through only with a header whose
    token, after the first ["Bearer "] is cut out, is verified to the id of a
    registered account, and then hands exactly that account to the route;
    every refusal is a 401, and a missing header or one that is only
    ["Bearer "] is refused before any verification. *)
Theorem X20_only_verified_tokens_of_accounts_pass aenv authorization s :
  (forall user,
     authenticateUser aenv authorization s = inr user ->
     exists header,
       authorization = Some header /\
       user ∈ usersDatabase s /\
       jwt_verify aenv (replace_first "Bearer " "" header) = Some (acc_id user)) /\
  (forall r, authenticateUser aenv authorization s = inl r -> auth_status r = 401%Z) /\
  (authorization = None \/ authorization = Some "" \/ authorization = Some "Bearer " ->
   authenticateUser aenv authorization s =
     inl (mkAuthResponse 401 (AuthFailure "Access denied. No token provided."))).
Proof.
  split; [|split].
  - intros user. unfold authenticateUser.
    destruct authorization as [header|]; cbn [option_map]; [|discriminate].
    destruct (replace_first "Bearer " "" header) as [|c token] eqn:Htok; [discriminate|].
    destruct (jwt_verify aenv _) as [userId|] eqn:Hv; [|discriminate].
    destruct (List.find _ _) as [user'|] eqn:Hfind; [|discriminate].
    intros [= <-]. apply List.find_some in Hfind as [Hin Hid].
    apply String.eqb_eq in Hid. apply list_elem_of_In in Hin.
    exists header. by rewrite Htok, Hv, Hid.
  - intros r. unfold authenticateUser.
    destruct (option_map _ authorization) as [[|c token]|]; try by intros [= <-].
    destruct (jwt_verify aenv _) as [userId|]; [|by intros [= <-]].
    destruct (List.find _ _) as [user'|]; [discriminate|by intros [= <-]].
  - by intros [->|[->| ->]].
Qed.

(** X21. The token a signup answers with authenticates as the new account:
    sent back as [Bearer <token>] it passes [authenticateUser] with that
    account, so [GET /auth/me] shows the id, name, address and creation time
    of the signup; provided a signed token verifies to its id and no earlier
    account has the generated id. *)
Theorem X21_signup_token_authenticates env aenv aenv' body s id username email createdAt
    token :
  auth_libraries_agree aenv aenv' ->
  Forall (fun u => acc_id u <> uuidv4 env (uuid_cursor (srv_world s))) (usersDatabase s) ->
  snd (auth_signup env aenv body s) =
    mkAuthResponse 201 (AuthSuccess "User created successfully"
                          id username email (Some createdAt) token) ->
  let s' := fst (auth_signup env aenv body s) in
  (exists user,
     authenticateUser aenv' (Some ("Bearer " +:+ token)) s' = inr user /\
     user_of user = mkUser id username email /\ user ∈ usersDatabase s') /\
  auth_me aenv' (Some ("Bearer " +:+ token)) s' =
    mkAuthResponse 200 (Profile id username email createdAt).
Proof.
  intros (_ & Hjwt) Hfresh Hsignup. cbn zeta. revert Hsignup.
  unfold auth_signup.
  destruct (List.find _ _) as [u0|] eqn:Hfind; [discriminate|].
  destruct (bcrypt_hash aenv (cr_password body)) as [h|] eqn:Hh; [|discriminate].
  unfold generateId. cbn.
  destruct (jwt_sign aenv _) as [t|] eqn:Ht; [|discriminate].
  intros [= <- <- <- <- <-]. cbn.
  destruct (Hjwt _ _ Ht) as [Hv Hne].
  assert (Hauth : authenticateUser aenv' (Some ("Bearer " +:+ t))
            {| srv_world := bump_clock (bump_uuid (srv_world s));
               usersDatabase := (usersDatabase s ++
                 [mkAccount (uuidv4 env (uuid_cursor (srv_world s))) (cr_username body)
                            (cr_email body) h
                            (now env (clock_cursor (srv_world s)))])%list |}
          = inr (mkAccount (uuidv4 env (uuid_cursor (srv_world s))) (cr_username body)
                           (cr_email body) h (now env (clock_cursor (srv_world s))))).
  { unfold authenticateUser. cbn [option_map]. rewrite replace_first_Bearer.
    destruct t as [|c t]; [done|]. rewrite Hv. cbn [usersDatabase].
    rewrite (find_app_new _ _ _); [done| |cbn; apply String.eqb_refl].
    eapply Forall_impl; [exact Hfresh|]. cbn. intros u Hu. by apply String.eqb_neq. }
  split.
  - eexists. split; [exact Hauth|]. split; [done|].
    cbn. apply elem_of_app. right. apply list_elem_of_here.
  - unfold auth_me. by rewrite Hauth.
Qed.

Lemma X21_witness :
  auth_libraries_agree aenv_sample aenv_sample /\
  Forall (fun u => acc_id u <> uuidv4 env_up (uuid_cursor (srv_world initial_server)))
         (usersDatabase initial_server) /\
  snd (auth_signup env_up aenv_sample alice_credentials initial_server) =
    mkAuthResponse 201
      (AuthSuccess "User created successfully" "uuid-0" "alice" "alice@example.com"
                   (Some "2024-01-01T00:00:00.000Z") "jwt.uuid-0") /\
  auth_me aenv_sample (Some "Bearer jwt.uuid-0") s_alice =
    mkAuthResponse 200
      (Profile "uuid-0" "alice" "alice@example.com" "2024-01-01T00:00:00.000Z").
Proof.
  split; [apply aenv_sample_agrees|]. split; [by constructor|]. split; [by vm_compute|].
  destruct (X21_signup_token_authenticates env_up aenv_sample aenv_sample
              alice_credentials initial_server "uuid-0" "alice" "alice@example.com"
              "2024-01-01T00:00:00.000Z" "jwt.uuid-0" aenv_sample_agrees)
    as (_ & Hme); [by constructor | by vm_compute|].
  exact Hme.
Defined.

(** X22. [GET /admin/stats] changes nothing. When both key scans go through
    it reports the number of accounts and of records, and its two key lists
    hold, each once, exactly the keys that store a queue entry and exactly
    the keys that store a status entry, the two pending counts being their
    lengths; when a scan is rejected it answers 500. *)
Theorem X22_stats_list_the_pending_work env users w :
  reachable w ->
  run (admin_stats env users) w = w /\
  match result (admin_stats env users) w with
  | inr (Some st) =>
      totalUsers st = length users /\
      stats_totalBooks st = length (booksDatabase w) /\
      pendingBulkJobs st = length (stats_bulkKeys st) /\
      pendingReports st = length (stats_statusKeys st) /\
      NoDup (stats_bulkKeys st) /\ NoDup (stats_statusKeys st) /\
      (forall k, k ∈ stats_bulkKeys st <->
         exists e bd, redis w !! k = Some e /\ entry_value e = VQueue bd) /\
      (forall k, k ∈ stats_statusKeys st <->
         exists e sd, redis w !! k = Some e /\ entry_value e = VStatus sd)
  | inr None =>
      redis_down env (OpKeys REDIS_KEYS.allBulkKeys) = true \/
      redis_down env (OpKeys REDIS_KEYS.allStatusKeys) = true
  | inl _ => False
  end.
Proof.
  intros Hreach. unfold admin_stats, redis_keys. unfold_M.
  destruct (redis_down env (OpKeys REDIS_KEYS.allBulkKeys)) eqn:Hb; cbn; [auto|].
  destruct (redis_down env (OpKeys REDIS_KEYS.allStatusKeys)) eqn:Hs; cbn; [auto|].
  split; [done|]. repeat split; try apply scan_NoDup.
  - by apply reachable_queue_keys.
  - by apply reachable_queue_keys.
  - by apply reachable_status_keys.
  - by apply reachable_status_keys.
Qed.

Lemma X22_witness :
  reachable w_queued /\
  run (admin_stats env_up []) w_queued = w_queued.
Proof.
  split; [apply reachable_w_queued|].
  destruct (X22_stats_list_the_pending_work env_up [] w_queued reachable_w_queued)
    as (Hrun & _).
  exact Hrun.
Defined.
